(** * HistogramAxis: bin edges of one histogram axis

    A shallow embedding of [src/histogram/histogram_axis.py].

    The items of an array are finite numbers, held as rationals ([Q]); NaN
    and the infinities are not among them.  Comparisons and the moving of
    items are exact on them.  [np.linspace], which computes the edges of a
    uniform axis, is evaluated in binary64 ([F64], on the Standard
    Library's [SpecFloat]), rounding included; the distances [edge_index]
    compares, [max + 1.] and the tolerance test of [np.allclose] are
    computed on the exact values.

    The numpy arrays the class keeps are modelled with their buffers: an
    [ndarray] is a view (base buffer, offset, stride, shape) into a heap of
    buffers, because basic slicing ([a[i:j]], [a[::n]]) shares the buffer
    of the array it slices and item assignment writes through to it.
    Methods that only read take the heap as an argument; methods that
    allocate or write run in the monad [M], which
    threads the heap and may raise a Python exception. *)

From Stdlib Require Import ZArith QArith Qabs List String Ascii Bool Lia Lqa.
From Stdlib Require Import SpecFloat.
Import ListNotations.

Set Implicit Arguments.
Local Open Scope Z_scope.

(** ** Python: exceptions, results, slices *)

Module Py.

Inductive exn : Type :=
| TypeError
| ValueError
| AssertionError
| IndexError
| ZeroDivisionError
| FloatingPointError.

Inductive result (A : Type) : Type :=
| Ok (a : A)
| Raise (e : exn).

Arguments Ok {A} a.
Arguments Raise {A} e.

Definition is_ok {A} (r : result A) : bool :=
  match r with Ok _ => true | Raise _ => false end.

(** Comparison of two numbers, [x < y]. *)
Definition Qltb (x y : Q) : bool := negb (Qle_bool y x).

(** [PySlice_AdjustIndices] on one bound of a slice over [len] items. *)
Definition clamp_index (len i step : Z) : Z :=
  if i <? 0 then
    let i' := i + len in
    if i' <? 0 then (if step <? 0 then -1 else 0) else i'
  else if len <=? i then (if step <? 0 then len - 1 else len)
  else i.

(** [slice(start, stop, step).indices(len)]: the first index selected and
    how many items are selected; [step] is not zero. *)
Definition slice_indices (len : Z) (start stop : option Z) (step : Z)
  : Z * nat :=
  let start' := match start with
                | Some s => clamp_index len s step
                | None => if step <? 0 then len - 1 else 0
                end in
  let stop' := match stop with
               | Some s => clamp_index len s step
               | None => if step <? 0 then -1 else len
               end in
  let count := if step <? 0
               then (if stop' <? start'
                     then (start' - stop' - 1) / (- step) + 1 else 0)
               else (if start' <? stop'
                     then (stop' - start' - 1) / step + 1 else 0) in
  (start', Z.to_nat count).

(** [l[i]] for a list read with a Python index (negative counts from the
    end); the default [0] stands for an index out of range. *)
Definition item (l : list Q) (i : Z) : Q :=
  nth (Z.to_nat (if i <? 0 then i + Z.of_nat (List.length l) else i)) l 0%Q.

(** [l[n] = v] on a list, nothing changed out of range. *)
Fixpoint list_set {A} (l : list A) (n : nat) (v : A) : list A :=
  match l, n with
  | [], _ => []
  | _ :: t, O => v :: t
  | x :: t, S n' => x :: list_set t n' v
  end.

End Py.

Import Py.

(** ** binary64: the numbers of a [float64] array and of a Python float *)

Module F64.

Definition prec : Z := 53.
Definition emax : Z := 1024.

Definition float : Type := spec_float.

Definition zero : float := S754_zero false.

(** [float(n)] of an integer, rounded to the nearest float, ties to even. *)
Definition of_Z (n : Z) : float := binary_normalize prec emax n 0 false.

(** The float nearest to a rational, ties to even: the quotient of the
    numerator by the denominator, rounded once. *)
Definition of_Q (q : Q) : float :=
  match Qnum q with
  | Z0 => zero
  | Zpos p =>
    SFdiv prec emax (S754_finite false p 0) (S754_finite false (Qden q) 0)
  | Zneg p =>
    SFdiv prec emax (S754_finite true p 0) (S754_finite false (Qden q) 0)
  end.

(** Neither an infinity nor NaN. *)
Definition finite (x : float) : bool :=
  match x with
  | S754_zero _ | S754_finite _ _ _ => true
  | S754_infinity _ | S754_nan => false
  end.

(** The number a finite float stands for, [m * 2^e] with its sign, in
    lowest terms; the [0] of the last case is never an item of an array. *)
Definition to_Q (x : float) : Q :=
  match x with
  | S754_finite s m e =>
    Qred (inject_Z (if s then Zneg m else Zpos m) * Qpower 2 e)
  | _ => 0
  end.

(** A rational that a float holds exactly, as every Python float is. *)
Definition is_float (q : Q) : bool :=
  finite (of_Q q) && Qeq_bool (to_Q (of_Q q)) q.

Definition add : float -> float -> float := SFadd prec emax.
Definition sub : float -> float -> float := SFsub prec emax.
Definition mul : float -> float -> float := SFmul prec emax.
Definition div : float -> float -> float := SFdiv prec emax.
Definition eqb : float -> float -> bool := SFeqb.

End F64.

(** ** numpy: buffers, views, the operations the class calls *)

Module Np.

Definition buffer := list Q.
Definition heap := list buffer.

(** An array object: a view on buffer [base]; item [k] of a one-dimensional
    view is at position [offset + k * stride] of the buffer. *)
Record ndarray : Type := mk_ndarray {
  base : nat;
  offset : Z;
  stride : Z;
  shape : list nat
}.

Definition ndim (a : ndarray) : nat := List.length (shape a).

(** [len(a)]: the first dimension. *)
Definition len (a : ndarray) : nat := hd 0%nat (shape a).

(** [a.size]: the number of items. *)
Fixpoint prod (s : list nat) : nat :=
  match s with
  | [] => 1%nat
  | n :: r => match r with [] => n | _ :: _ => (n * prod r)%nat end
  end.

Definition load (h : heap) (a : ndarray) (k : Z) : Q :=
  nth (Z.to_nat (offset a + k * stride a)) (nth (base a) h []) 0%Q.

(** The items of [a] in order, as the heap has them now. *)
Definition values (h : heap) (a : ndarray) : list Q :=
  map (fun k => load h a (Z.of_nat k)) (seq 0 (prod (shape a))).

(** State and exceptions: a call may change the heap and then raise. *)
Definition M (A : Type) : Type := heap -> result A * heap.

Definition ret {A} (a : A) : M A := fun h => (Ok a, h).
Definition raise {A} (e : exn) : M A := fun h => (Raise e, h).
Definition bind {A B} (c : M A) (k : A -> M B) : M B :=
  fun h => match c h with
           | (Ok a, h') => k a h'
           | (Raise e, h') => (Raise e, h')
           end.
Definition lift {A} (r : result A) : M A := fun h => (r, h).
Definition read {A} (f : heap -> A) : M A := fun h => (Ok (f h), h).

(** A new array owning a new buffer. *)
Definition alloc (l : list Q) (sh : list nat) : M ndarray :=
  fun h => (Ok (mk_ndarray (List.length h) 0 1 sh), h ++ [l]).

(** [a[start:stop:step]]: basic slicing gives a view on the same buffer. *)
Definition getslice (a : ndarray) (start stop : option Z) (step : Z)
  : result ndarray :=
  if step =? 0 then Raise ValueError
  else
    let '(first, count) :=
      slice_indices (Z.of_nat (len a)) start stop step in
    Ok (mk_ndarray (base a) (offset a + first * stride a)
                   (stride a * step) [count]).

(** Normalisation of one integer index of a one-dimensional array. *)
Definition check_index (a : ndarray) (i : Z) : result Z :=
  let n := Z.of_nat (len a) in
  if (i <? - n) || (n <=? i) then Raise IndexError
  else Ok (if i <? 0 then i + n else i).

(** [a[i]]. *)
Definition getitem (h : heap) (a : ndarray) (i : Z) : result Q :=
  match check_index a i with
  | Ok k => Ok (load h a k)
  | Raise e => Raise e
  end.

(** [a[i] = v]: writes into the buffer [a] views. *)
Definition setitem (a : ndarray) (i : Z) (v : Q) : M unit :=
  fun h =>
    match check_index a i with
    | Ok k =>
      let pos := Z.to_nat (offset a + k * stride a) in
      (Ok tt, list_set h (base a) (list_set (nth (base a) h []) pos v))
    | Raise e => (Raise e, h)
    end.

(** [a.copy()] and [deepcopy(a)]: a new array with the items of [a]. *)
Definition copy (a : ndarray) : M ndarray :=
  fun h => alloc (values h a) (shape a) h.

(** The loop of [np.searchsorted(arr, key, side='right')]: binary search
    for the first position whose item is greater than [key].  [fuel] bounds
    the number of iterations; [List.length arr] is enough. *)
Fixpoint binsearch_right (fuel : nat) (arr : list Q) (key : Q)
         (imin imax : nat) : nat :=
  match fuel with
  | O => imin
  | S fuel' =>
    if (imin <? imax)%nat then
      let mid := (imin + (imax - imin) / 2)%nat in
      if Qltb key (nth mid arr 0%Q)
      then binsearch_right fuel' arr key imin mid
      else binsearch_right fuel' arr key (mid + 1) imax
    else imin
  end.

Definition searchsorted_right (arr : list Q) (key : Q) : nat :=
  binsearch_right (List.length arr) arr key 0%nat (List.length arr).

(** Objects that [np.asarray] turns into an array of numbers. *)
Inductive pyobj : Type :=
| PInt (n : Z)
| PFloat (q : Q)
| PList (l : list Q)
| PArray (a : ndarray).

(** [np.asarray(o)]: an array is returned as it is, a sequence becomes a
    one-dimensional array, a number a zero-dimensional one. *)
Definition asarray (o : pyobj) : M ndarray :=
  match o with
  | PArray a => ret a
  | PList l => alloc l [List.length l]
  | PInt n => alloc [inject_Z n] []
  | PFloat q => alloc [q] []
  end.

(** [copy.deepcopy(o)]. *)
Definition deepcopy (o : pyobj) : M pyobj :=
  match o with
  | PArray a => bind (copy a) (fun a' => ret (PArray a'))
  | _ => ret o
  end.

(** [y[-1] = stop] on the list being built. *)
Definition set_last {A} (y : list A) (stop : A) : list A :=
  list_set y (List.length y - 1) stop.

(** The items [np.linspace(start, stop, num)] computes, [endpoint=True],
    for [num >= 0], in binary64 and in numpy's order of operations:
    [start] and [stop] are made floats, [delta = stop - start],
    [y = arange(0, num)]; with [div = num - 1 > 0] and
    [step = delta / div], [y = y * step], or [y = (y / div) * delta] when
    [step] is zero; without, [y = y * delta]; then [y += start], and
    [y[-1] = stop] when [num > 1]. *)
Definition linspace_items (start stop : Q) (num : Z) : list F64.float :=
  let div := num - 1 in
  let start := F64.of_Q start in
  let stop := F64.of_Q stop in
  let delta := F64.sub stop start in
  let y := map (fun k => F64.of_Z (Z.of_nat k)) (seq 0 (Z.to_nat num)) in
  let y := if 0 <? div
           then
             let step := F64.div delta (F64.of_Z div) in
             if F64.eqb step F64.zero
             then map (fun v => F64.mul (F64.div v (F64.of_Z div)) delta) y
             else map (fun v => F64.mul v step) y
           else map (fun v => F64.mul v delta) y in
  let y := map (fun v => F64.add v start) y in
  if 1 <? num then set_last y stop else y.

(** [np.linspace(start, stop, num)]: a negative [num] raises; the result
    is a new array of floats.  Where an item overflows or is invalid numpy
    warns and goes on with [inf] or [nan]; an array of the model cannot
    hold these, and the model stops instead, with the [FloatingPointError]
    numpy has for them when it is set to raise rather than to warn. *)
Definition linspace (start stop : Q) (num : Z) : M ndarray :=
  if num <? 0 then raise ValueError
  else
    let y := linspace_items start stop num in
    if forallb F64.finite y
    then alloc (map F64.to_Q y) [List.length y]
    else raise FloatingPointError.

(** [np.zeros((n,), dtype=bool)]; a negative dimension raises. *)
Definition zeros (n : Z) : result (list bool) :=
  if n <? 0 then Raise ValueError else Ok (repeat false (Z.to_nat n)).

(** [mask[start:stop] = True]. *)
Definition setslice_true (mask : list bool) (start stop : Z) : list bool :=
  let '(first, count) :=
    slice_indices (Z.of_nat (List.length mask)) (Some start) (Some stop) 1 in
  firstn (Z.to_nat first) mask ++ repeat true count
         ++ skipn (Z.to_nat first + count) mask.

(** Broadcasting of two one-dimensional shapes. *)
Definition broadcast (m n : nat) : result nat :=
  if (m =? n)%nat then Ok n
  else if (m =? 1)%nat then Ok n
  else if (n =? 1)%nat then Ok m
  else Raise ValueError.

Definition stretch (l : list Q) (n : nat) : list Q :=
  match l with
  | [v] => repeat v n
  | _ => l
  end.

Definition rtol : Q := 1 # 100000.
Definition atol : Q := 1 # 100000000.

(** [np.allclose(a, b)] on one-dimensional arrays, default tolerances:
    [all(abs(a - b) <= atol + rtol * abs(b))] after broadcasting. *)
Definition allclose (h : heap) (a b : ndarray) : result bool :=
  match broadcast (len a) (len b) with
  | Raise e => Raise e
  | Ok n =>
    Ok (forallb (fun p => Qle_bool (Qabs (fst p - snd p))
                                   (atol + rtol * Qabs (snd p)))
                (combine (stretch (values h a) n) (stretch (values h b) n)))
  end.

(** [np.concatenate] of one-dimensional pieces: a new array. *)
Definition concatenate (l : list Q) : M ndarray := alloc l [List.length l].

End Np.

Import Np.

Declare Scope py_scope.
Delimit Scope py_scope with py.
Notation "x <- c ;; k" := (bind c (fun x => k))
  (at level 61, c at next level, right associativity) : py_scope.
Notation "c ;;; k" := (bind c (fun _ => k))
  (at level 61, right associativity) : py_scope.

(** ** The class *)

Module Axis.

(** A label is a string, or the [str()] of a sequence of numbers that was
    given where a label was expected. *)
Inductive pystr : Type :=
| Str (s : string)
| StrOf (l : list Q).

(** What a caller writes as second argument of the constructor: nothing,
    the range [(min, max)] as a sequence, or (with edges as first argument)
    the label. *)
Inductive limits_arg : Type :=
| LimNone
| LimSeq (l : list Q)
| LimStr (s : string).

Record HistogramAxis : Type := mk_axis {
  _edges : ndarray;
  _label : option pystr
}.

(** First argument of the constructor. *)
Inductive bins_arg : Type :=
| Bins (o : pyobj)
| BinsAxis (a : HistogramAxis).

(** [snap] of [cut]: one keyword, or one per side.  Modelled from the spec:
    [isstr] of the module [detail], which is not among the sources, tells
    the two apart: it holds of [Snap s] (a string) and not of a pair. *)
Inductive snap_arg : Type :=
| Snap (s : string)
| Snap2 (s0 s1 : string).

(** Result of [edge_index]: one index, or the pair of [snap='both']. *)
Inductive edge_ix : Type :=
| Index (i : Z)
| Both (lo hi : Z).

(** [self.edges] as a list of values. *)
Definition edges (h : heap) (self : HistogramAxis) : list Q :=
  values h (_edges self).

(** The test of the [edges] setter on item pairs:
    [all(x < y for x, y in ...)]. *)
Definition all_lt (pairs : list (Q * Q)) : bool :=
  forallb (fun p => Qltb (fst p) (snd p)) pairs.

(** [all(x < y for x, y in zip(e, e[1:]))] on a list of values. *)
Definition strictly_increasing (e : list Q) : bool :=
  all_lt (combine e (tl e)).

(** The [edges] setter; the array that becomes [self._edges]. *)
Definition set_edges (e : pyobj) : M ndarray :=
  (e <- match e with
        | PArray a => ret a
        | _ => asarray e
        end ;;
   if negb (ndim e =? 1)%nat then raise AssertionError
   else
     e1 <- lift (getslice e (Some 1) None 1) ;;
     ok <- read (fun h => all_lt (combine (values h e) (values h e1))) ;;
     if negb ok then raise ValueError else ret e)%py.

(** The [label] setter on a string or [None] ([isstr(l)] holds of every
    string); the new [self._label]. *)
Definition set_label (l : option pystr) : option pystr :=
  match l with
  | None => None
  | Some (Str s) => if String.eqb s "" then None else Some (Str s)
  | Some (StrOf q) => Some (StrOf q)
  end.

(** The [label] setter on the constructor's second argument; a sequence is
    not a string and is stored as its [str()]. *)
Definition set_label_obj (l : limits_arg) : option pystr :=
  match l with
  | LimNone => None
  | LimStr s => set_label (Some (Str s))
  | LimSeq q => Some (StrOf q)
  end.

(** [hasattr(bins, '__iter__')]. *)
Definition has_iter (bins : bins_arg) : bool :=
  match bins with
  | Bins (PList _) | Bins (PArray _) => true
  | _ => false
  end.

Definition is_none {A} (o : option A) : bool :=
  match o with None => true | Some _ => false end.

(** [HistogramAxis(bins, limits, label)]. *)
Definition __init__ (bins : bins_arg) (limits : limits_arg)
           (label : option pystr) : M HistogramAxis :=
  let '(lab, limits) :=
    if has_iter bins && is_none label
    then (set_label_obj limits, LimNone)
    else (set_label label, limits) in
  match limits with
  | LimNone =>
    match bins with
    | BinsAxis b =>
      (c <- copy (_edges b) ;;
       e <- set_edges (PArray c) ;;
       ret (mk_axis e (if is_none label then set_label (_label b)
                       else set_label label)))%py
    | Bins o =>
      (c <- deepcopy o ;;
       e <- set_edges c ;;
       ret (mk_axis e lab))%py
    end
  | LimSeq l =>
    match bins with
    | Bins (PInt n) =>
      match l with
      | [lo; hi] =>
        if negb (Qltb lo hi) then raise ValueError
        else
          (y <- linspace lo hi (n + 1) ;;
           e <- set_edges (PArray y) ;;
           ret (mk_axis e lab))%py
      | _ => raise ValueError
      end
    | _ => raise TypeError
    end
  | LimStr s =>
    match bins with
    | Bins (PInt n) =>
      match s with
      | String c0 (String c1 EmptyString) =>
        if negb (nat_of_ascii c0 <? nat_of_ascii c1)%nat
        then raise ValueError
        else raise TypeError
      | _ => raise ValueError
      end
    | _ => raise TypeError
    end
  end.

(** [nbins]: [len(self.edges) - 1]. *)
Definition nbins (self : HistogramAxis) : Z :=
  Z.of_nat (len (_edges self)) - 1.

(** [bin]: [np.searchsorted(self.edges, x, side='right') - 1]. *)
Definition bin (h : heap) (self : HistogramAxis) (x : Q) : Z :=
  Z.of_nat (searchsorted_right (edges h self) x) - 1.

Definition snap_in (s : string) (options : list string) : bool :=
  existsb (String.eqb s) options.

(** The locals [lowbin] and [highbin] of [edge_index]: the indices of the
    two edges that bound [x], clamped to the valid edge indices. *)
Definition lowbin (h : heap) (self : HistogramAxis) (x : Q) : Z :=
  let minbin := 0 in
  Z.max (bin h self x) minbin.

Definition highbin (h : heap) (self : HistogramAxis) (x : Q) : Z :=
  let maxbin := Z.of_nat (len (_edges self)) - 1 in
  Z.min (bin h self x + 1) maxbin.

(** [edge_index(x, snap)]. *)
Definition edge_index (h : heap) (self : HistogramAxis) (x : Q)
           (snap : string) : result edge_ix :=
  if negb (snap_in snap ["nearest"; "low"; "high"; "both"]%string)
  then Raise AssertionError
  else
    let lowbin := lowbin h self x in
    let highbin := highbin h self x in
    if String.eqb snap "nearest" then
      match getitem h (_edges self) lowbin,
            getitem h (_edges self) highbin with
      | Ok low, Ok high =>
        let dlow := Qabs (x - low) in
        let dhigh := Qabs (high - x) in
        if Qltb dlow dhigh then Ok (Index lowbin) else Ok (Index highbin)
      | Raise e, _ | _, Raise e => Raise e
      end
    else if String.eqb snap "both" then Ok (Both lowbin highbin)
    else if String.eqb snap "low" then Ok (Index lowbin)
    else Ok (Index highbin).

(** An index used as a slice bound; a tuple there is a [TypeError]. *)
Definition as_index (r : result edge_ix) : result Z :=
  match r with
  | Ok (Index i) => Ok i
  | Ok (Both _ _) => Raise TypeError
  | Raise e => Raise e
  end.

Definition clip_or_expand (s : string) : bool :=
  snap_in s ["clip"; "expand"]%string.

(** [cut(low, high, snap)]: the new axis and the mask. *)
Definition cut (self : HistogramAxis) (low high : option Q)
           (snap : snap_arg) : M (HistogramAxis * list bool) :=
  let '(snap0, snap1) := match snap with
                         | Snap s => (s, s)
                         | Snap2 s0 s1 => (s0, s1)
                         end in
  let snap_options := ["nearest"; "expand"; "low"; "high"; "clip"]%string in
  if negb (forallb (fun s => snap_in s snap_options) [snap0; snap1])
  then raise AssertionError
  else
    (lowi <- match low with
             | None => ret 0
             | Some lo =>
               let eisnap := if clip_or_expand snap0 then "low"%string
                             else snap0 in
               fun h => (as_index (edge_index h self lo eisnap), h)
             end ;;
     highi <- match high with
              | None => ret (Z.of_nat (len (_edges self)) - 1)
              | Some hi =>
                let eisnap := if clip_or_expand snap1 then "high"%string
                              else snap1 in
                fun h => (as_index (edge_index h self hi eisnap), h)
              end ;;
     newedges <- lift (getslice (_edges self) (Some lowi)
                                (Some (highi + 1)) 1) ;;
     mask <- lift (zeros (nbins self)) ;;
     let mask := setslice_true mask lowi highi in
     match low with
     | Some lo => if String.eqb snap0 "clip" then setitem newedges 0 lo
                  else ret tt
     | None => ret tt
     end ;;;
     match high with
     | Some hi => if String.eqb snap1 "clip" then setitem newedges (-1) hi
                  else ret tt
     | None => ret tt
     end ;;;
     a <- __init__ (Bins (PArray newedges)) LimNone (_label self) ;;
     ret (a, mask))%py.

(** [mergebins(nbins, snap, clip)]; [n] is the argument [nbins]. *)
Definition mergebins (self : HistogramAxis) (n : Z) (snap : string)
           (clip : bool) : M HistogramAxis :=
  if negb (snap_in snap ["low"; "high"]%string) then raise AssertionError
  else if n =? 0 then raise ZeroDivisionError
  else
    let d := nbins self / n in
    let m := nbins self mod n in
    let e := _edges self in
    (newedges <-
       (if m =? 0 then lift (getslice e None None n)
        else if clip then
          if String.eqb snap "low" then lift (getslice e None None n)
          else lift (getslice e (Some m) None n)
        else
          if String.eqb snap "low" then
            v <- lift (getslice e None None n) ;;
            last <- (fun h => (getitem h e (-1), h)) ;;
            front <- read (fun h => values h v) ;;
            concatenate (front ++ [last])
          else
            first <- (fun h => (getitem h e 0, h)) ;;
            v <- lift (getslice e (Some m) None n) ;;
            back <- read (fun h => values h v) ;;
            concatenate (first :: back)) ;;
     __init__ (Bins (PArray newedges)) LimNone (_label self))%py.

(** [self == that]: [np.allclose] on the edges, [False] when it raises
    [ValueError]. *)
Definition __eq__ (h : heap) (self that : HistogramAxis) : result bool :=
  match allclose h (_edges self) (_edges that) with
  | Ok b => Ok b
  | Raise ValueError => Ok false
  | Raise e => Raise e
  end.

(** [min]: [self.edges[0]]. *)
Definition min (h : heap) (self : HistogramAxis) : result Q :=
  getitem h (_edges self) 0.

(** [max]: [self.edges[-1]]. *)
Definition max (h : heap) (self : HistogramAxis) : result Q :=
  getitem h (_edges self) (-1).

(** [limits]: [(self.min, self.max)]. *)
Definition limits (h : heap) (self : HistogramAxis) : result (Q * Q) :=
  match min h self with
  | Raise e => Raise e
  | Ok lo => match max h self with
             | Raise e => Raise e
             | Ok hi => Ok (lo, hi)
             end
  end.

(** [overflow]: [self.max + 1.]. *)
Definition overflow (h : heap) (self : HistogramAxis) : result Q :=
  match max h self with
  | Ok m => Ok (m + 1)%Q
  | Raise e => Raise e
  end.

(** [clone()]: [HistogramAxis(self.edges.copy(), label=copy(self.label))]. *)
Definition clone (self : HistogramAxis) : M HistogramAxis :=
  (c <- copy (_edges self) ;;
   __init__ (Bins (PArray c)) LimNone (_label self))%py.

(** [inaxis(x)]: the chained comparison
    [self.edges[0] <= x < self.edges[-1]]; the second edge is read only
    when the first comparison holds. *)
Definition inaxis (h : heap) (self : HistogramAxis) (x : Q) : result bool :=
  match getitem h (_edges self) 0 with
  | Raise e => Raise e
  | Ok lo =>
    if Qle_bool lo x then
      match getitem h (_edges self) (-1) with
      | Ok hi => Ok (Qltb x hi)
      | Raise e => Raise e
      end
    else Ok false
  end.

(** [binwidth(b)]: [self.edges[b+1] - self.edges[b]]; the default of [b]
    is [1].  The two items are subtracted in the dtype of the array, with
    rounding or overflow for [float64] and wrap-around for [int64]: [sub]
    stands for that subtraction, whose result need not be a finite
    number. *)
Definition binwidth {A} (sub : Q -> Q -> A) (h : heap)
           (self : HistogramAxis) (b : Z) : result A :=
  match getitem h (_edges self) (b + 1) with
  | Raise e => Raise e
  | Ok hi => match getitem h (_edges self) b with
             | Ok lo => Ok (sub hi lo)
             | Raise e => Raise e
             end
  end.

End Axis.

Import Axis.

(** The invariant the [edges] setter establishes: a one-dimensional array
    whose values are strictly increasing. *)
Definition axis_ok (h : heap) (a : HistogramAxis) : bool :=
  (ndim (_edges a) =? 1)%nat && strictly_increasing (edges h a).

(** What the [edges] setter is given: is it one-dimensional, and its items. *)
Definition one_dimensional (o : pyobj) : bool :=
  match o with
  | PList _ => true
  | PArray a => (ndim a =? 1)%nat
  | PInt _ | PFloat _ => false
  end.

Definition items (h : heap) (o : pyobj) : list Q :=
  match o with
  | PList l => l
  | PArray a => values h a
  | PInt n => [inject_Z n]
  | PFloat q => [q]
  end.

(** A view lies within its buffer, and its items are at distinct positions
    (what numpy guarantees of every array it hands out). *)
Definition wf_view (h : heap) (v : ndarray) : Prop :=
  (base v < List.length h)%nat /\
  stride v <> 0 /\
  forall k, 0 <= k < Z.of_nat (len v) ->
            0 <= offset v + k * stride v
            < Z.of_nat (List.length (nth (base v) h [])).

(** Number of [True] entries of a mask. *)
Definition count_true (mask : list bool) : nat :=
  List.length (filter (fun b => b) mask).

(** [l[i:j]] of a list, for [0 <= i] and [j] within the list. *)
Definition segment (l : list Q) (i j : Z) : list Q :=
  firstn (Z.to_nat (j - i)) (skipn (Z.to_nat i) l).

(** The locals [lowi] and [highi] of [cut], as [cut] computes them from a
    bound and the snap keyword of its side. *)
Definition cut_lowi (h : heap) (self : HistogramAxis) (low : option Q)
           (snap0 : string) : result Z :=
  match low with
  | None => Ok 0
  | Some lo =>
    as_index (edge_index h self lo
                (if clip_or_expand snap0 then "low"%string else snap0))
  end.

Definition cut_highi (h : heap) (self : HistogramAxis) (high : option Q)
           (snap1 : string) : result Z :=
  match high with
  | None => Ok (Z.of_nat (len (_edges self)) - 1)
  | Some hi =>
    as_index (edge_index h self hi
                (if clip_or_expand snap1 then "high"%string else snap1))
  end.

(** The snap keywords [cut] accepts. *)
Definition cut_snap_ok (s : string) : bool :=
  snap_in s ["nearest"; "expand"; "low"; "high"; "clip"]%string.

(** The steps a successful [cut] has gone through. *)
Definition cut_trace (h : heap) (a a' : HistogramAxis) (low high : option Q)
           (s0 s1 : string) (mask : list bool) : Prop :=
  exists lowi highi v m,
    cut_snap_ok s0 = true /\ cut_snap_ok s1 = true /\
    cut_lowi h a low s0 = Ok lowi /\
    cut_highi h a high s1 = Ok highi /\
    getslice (_edges a) (Some lowi) (Some (highi + 1)) 1 = Ok v /\
    zeros (nbins a) = Ok m /\
    mask = setslice_true m lowi highi /\
    shape (_edges a') = shape v.

(** ** Example axis: four edges [0, 1, 2, 3] in buffer 0 *)

Module Examples.

Definition heap0 : heap := [[0; 1; 2; 3]%Q].

Definition axis0 : HistogramAxis :=
  mk_axis (mk_ndarray 0 0 1 [4%nat]) None.

(** A second axis on the first three of these edges. *)
Definition axis1 : HistogramAxis :=
  mk_axis (mk_ndarray 0 0 1 [3%nat]) None.

(** The subtraction of two items of a [float64] array. *)
Definition sub64 (x y : Q) : F64.float :=
  F64.sub (F64.of_Q x) (F64.of_Q y).

End Examples.

(** * Proofs *)

(** ** Facts about comparisons and strictly increasing lists *)

Lemma Qltb_true (x y : Q) : Qltb x y = true <-> (x < y)%Q.
Proof.
  unfold Qltb. rewrite negb_true_iff. split; intro H.
  - apply Qnot_le_lt. intro L. apply Qle_bool_iff in L. congruence.
  - destruct (Qle_bool y x) eqn:E; trivial.
    apply Qle_bool_iff in E. exfalso. exact (Qle_not_lt _ _ E H).
Qed.

Lemma Qltb_false (x y : Q) : Qltb x y = false <-> (y <= x)%Q.
Proof.
  unfold Qltb. rewrite negb_false_iff. apply Qle_bool_iff.
Qed.

Lemma strictly_increasing_cons (x y : Q) (t : list Q) :
  strictly_increasing (x :: y :: t)
  = Qltb x y && strictly_increasing (y :: t).
Proof. reflexivity. Qed.

Lemma strictly_increasing_step (e : list Q) :
  strictly_increasing e = true <->
  forall i, (S i < List.length e)%nat -> (nth i e 0 < nth (S i) e 0)%Q.
Proof.
  induction e as [|x [|y t] IH].
  - split; [simpl; intros; lia | reflexivity].
  - split; [simpl; intros; lia | reflexivity].
  - rewrite strictly_increasing_cons, andb_true_iff, Qltb_true, IH.
    split.
    + intros [Hxy Ht] [|i] Hi; [exact Hxy|].
      apply (Ht i). simpl in *. lia.
    + intros H. split; [apply (H 0%nat); simpl; lia|].
      intros i Hi. apply (H (S i)). simpl in *. lia.
Qed.

Lemma strictly_increasing_lt (e : list Q) :
  strictly_increasing e = true ->
  forall i j, (i < j < List.length e)%nat -> (nth i e 0 < nth j e 0)%Q.
Proof.
  intros H i j. rewrite strictly_increasing_step in H.
  induction j as [|j IH]; intros Hij; [lia|].
  destruct (Nat.eq_dec i j) as [->|Hne].
  - apply H. lia.
  - apply Qlt_trans with (nth j e 0%Q); [apply IH; lia | apply H; lia].
Qed.

Lemma strictly_increasing_le (e : list Q) :
  strictly_increasing e = true ->
  forall i j, (i <= j < List.length e)%nat -> (nth i e 0 <= nth j e 0)%Q.
Proof.
  intros H i j Hij. destruct (Nat.eq_dec i j) as [->|Hne].
  - apply Qle_refl.
  - apply Qlt_le_weak, strictly_increasing_lt; trivial. lia.
Qed.

(** ** The binary search *)

Section Binsearch.

Variable arr : list Q.
Variable key : Q.
Hypothesis sorted :
  forall i j, (i <= j < List.length arr)%nat -> (nth i arr 0 <= nth j arr 0)%Q.

(** The loop keeps: every item left of [imin] is at most [key], every item
    from [imax] on is greater; with enough fuel it ends at the boundary. *)
Lemma binsearch_right_inv (fuel imin imax : nat) :
  (imin <= imax <= List.length arr)%nat ->
  (imax - imin <= fuel)%nat ->
  (forall i, (i < imin)%nat -> (nth i arr 0 <= key)%Q) ->
  (forall i, (imax <= i < List.length arr)%nat -> (key < nth i arr 0)%Q) ->
  let r := binsearch_right fuel arr key imin imax in
  (r <= List.length arr)%nat /\
  (forall i, (i < r)%nat -> (nth i arr 0 <= key)%Q) /\
  (forall i, (r <= i < List.length arr)%nat -> (key < nth i arr 0)%Q).
Proof.
  revert imin imax.
  induction fuel as [|fuel IH]; intros imin imax Hb Hf Hlo Hhi;
    cbn [binsearch_right].
  - assert (imin = imax) by lia. subst imax.
    repeat split; [lia | exact Hlo | exact Hhi].
  - destruct (imin <? imax)%nat eqn:Elt.
    + apply Nat.ltb_lt in Elt.
      set (mid := (imin + (imax - imin) / 2)%nat).
      assert (Hmid : (imin <= mid < imax)%nat).
      { unfold mid. pose proof (Nat.div_lt (imax - imin) 2). lia. }
      destruct (Qltb key (nth mid arr 0%Q)) eqn:Ecmp.
      * apply Qltb_true in Ecmp.
        apply IH; try lia; trivial.
        intros i Hi. apply Qlt_le_trans with (nth mid arr 0%Q); trivial.
        apply sorted. lia.
      * apply Qltb_false in Ecmp.
        apply IH; try lia; trivial.
        intros i Hi. apply Qle_trans with (nth mid arr 0%Q); trivial.
        apply sorted. lia.
    + apply Nat.ltb_ge in Elt. assert (imin = imax) by lia. subst imax.
      repeat split; [lia | exact Hlo | exact Hhi].
Qed.

Lemma searchsorted_right_spec :
  let r := searchsorted_right arr key in
  (r <= List.length arr)%nat /\
  (forall i, (i < r)%nat -> (nth i arr 0 <= key)%Q) /\
  (forall i, (r <= i < List.length arr)%nat -> (key < nth i arr 0)%Q).
Proof.
  unfold searchsorted_right. apply binsearch_right_inv; intros; lia.
Qed.

End Binsearch.

(** ** Views and their values *)

Lemma values_length (h : heap) (a : ndarray) :
  List.length (values h a) = prod (shape a).
Proof. unfold values. now rewrite length_map, length_seq. Qed.

Lemma ndim1_shape (a : ndarray) :
  (ndim a =? 1)%nat = true -> shape a = [len a].
Proof.
  unfold ndim, len. destruct (shape a) as [|n [|m r]]; simpl; intros H;
    try discriminate; reflexivity.
Qed.

Lemma axis_ok_inv (h : heap) (a : HistogramAxis) :
  axis_ok h a = true ->
  shape (_edges a) = [len (_edges a)] /\
  List.length (edges h a) = len (_edges a) /\
  strictly_increasing (edges h a) = true.
Proof.
  unfold axis_ok. rewrite andb_true_iff. intros [Hd Hs].
  pose proof (ndim1_shape _ Hd) as Hsh.
  repeat split; trivial.
  unfold edges. rewrite values_length, Hsh. reflexivity.
Qed.

Lemma item_nonneg (e : list Q) (i : Z) :
  0 <= i -> item e i = nth (Z.to_nat i) e 0%Q.
Proof.
  intros Hi. unfold item. destruct (i <? 0) eqn:E; trivial.
  apply Z.ltb_lt in E. lia.
Qed.

Lemma item_last (e : list Q) :
  item e (-1) = nth (List.length e - 1) e 0%Q.
Proof.
  unfold item. change (-1 <? 0) with true. cbv iota. f_equal. lia.
Qed.

(** ** bin *)

Section Bin.

Variable h : heap.
Variable a : HistogramAxis.
Hypothesis ok : axis_ok h a = true.

Lemma nbins_length : nbins a = Z.of_nat (List.length (edges h a)) - 1.
Proof.
  destruct (axis_ok_inv h a ok) as (_ & Hl & _).
  unfold nbins. now rewrite Hl.
Qed.

Lemma bin_searchsorted (x : Q) :
  let r := searchsorted_right (edges h a) x in
  bin h a x = Z.of_nat r - 1 /\
  (r <= List.length (edges h a))%nat /\
  (forall i, (i < r)%nat -> (nth i (edges h a) 0 <= x)%Q) /\
  (forall i, (r <= i < List.length (edges h a))%nat ->
             (x < nth i (edges h a) 0)%Q).
Proof.
  split; [reflexivity|].
  apply searchsorted_right_spec.
  apply strictly_increasing_le. apply (axis_ok_inv h a ok).
Qed.

(** The bin of [x] is the only [i] with [edges[i] <= x < edges[i+1]]. *)
Lemma bin_unique (x : Q) (i : Z) :
  0 <= i < nbins a ->
  (item (edges h a) i <= x < item (edges h a) (i + 1))%Q ->
  bin h a x = i.
Proof.
  rewrite nbins_length. intros Hi [Hlo Hhi].
  rewrite item_nonneg in Hlo, Hhi by lia.
  destruct (bin_searchsorted x) as (-> & Hr & P1 & P2).
  set (r := searchsorted_right (edges h a) x) in *.
  destruct (Nat.lt_ge_cases (Z.to_nat i) r) as [Hlt|Hge].
  - destruct (Nat.lt_ge_cases (Z.to_nat (i + 1)) r) as [Hlt'|Hge']; [|lia].
    exfalso. apply (Qle_not_lt _ _ (P1 _ Hlt') Hhi).
  - exfalso. apply (Qle_not_lt _ _ Hlo). apply P2. lia.
Qed.

Lemma bin_inside (x : Q) :
  (item (edges h a) 0 <= x < item (edges h a) (-1))%Q ->
  0 <= bin h a x < nbins a /\
  (item (edges h a) (bin h a x) <= x < item (edges h a) (bin h a x + 1))%Q.
Proof.
  rewrite nbins_length, item_last, item_nonneg by lia. intros [Hlo Hhi].
  destruct (bin_searchsorted x) as (-> & Hr & P1 & P2).
  set (r := searchsorted_right (edges h a) x) in *.
  assert (Hn : (0 < List.length (edges h a))%nat).
  { destruct (Nat.eq_dec (List.length (edges h a)) 0) as [E|]; [|lia].
    apply length_zero_iff_nil in E. rewrite E in Hlo, Hhi. simpl in *.
    exfalso. apply (Qle_not_lt _ _ Hlo Hhi). }
  assert (H1 : (1 <= r)%nat).
  { destruct r; [|lia]. exfalso. apply (Qle_not_lt _ _ Hlo). apply P2. lia. }
  assert (H2 : (r < List.length (edges h a))%nat).
  { destruct (Nat.lt_ge_cases r (List.length (edges h a))); trivial.
    exfalso.
    pose proof (P1 (List.length (edges h a) - 1)%nat ltac:(lia)) as Hl.
    apply (Qle_not_lt _ _ Hl Hhi). }
  split; [lia|].
  rewrite !item_nonneg by lia. split.
  - apply P1. lia.
  - replace (Z.to_nat (Z.of_nat r - 1 + 1)) with r by lia. apply P2. lia.
Qed.

Lemma bin_below (x : Q) : (x < item (edges h a) 0)%Q -> bin h a x < 0.
Proof.
  rewrite item_nonneg by lia. intros Hx.
  destruct (bin_searchsorted x) as (-> & Hr & P1 & P2).
  destruct (searchsorted_right (edges h a) x); [lia|].
  exfalso. apply (Qle_not_lt _ _ (P1 0%nat ltac:(lia)) Hx).
Qed.

Lemma bin_above (x : Q) : (item (edges h a) (-1) <= x)%Q -> bin h a x = nbins a.
Proof.
  rewrite nbins_length, item_last. intros Hx.
  destruct (bin_searchsorted x) as (-> & Hr & P1 & P2).
  set (r := searchsorted_right (edges h a) x) in *.
  destruct (Nat.lt_ge_cases r (List.length (edges h a))) as [Hlt|Hge]; [|lia].
  exfalso. apply (Qle_not_lt _ _ Hx).
  apply Qlt_le_trans with (nth r (edges h a) 0%Q).
  - apply P2. lia.
  - apply strictly_increasing_le; [apply (axis_ok_inv h a ok) | lia].
Qed.

Lemma bin_edge (i : Z) : 0 <= i < nbins a -> bin h a (item (edges h a) i) = i.
Proof.
  intros Hi. apply bin_unique; trivial.
  split; [apply Qle_refl|].
  rewrite nbins_length in Hi. rewrite !item_nonneg by lia.
  apply strictly_increasing_lt; [apply (axis_ok_inv h a ok) | lia].
Qed.

End Bin.

(** C1.  On an axis with strictly increasing edges, [bin(x)] is the unique
    index [i] with [edges[i] <= x < edges[i+1]] whenever
    [edges[0] <= x < edges[-1]]; [bin(edges[i]) = i] for every bin [i];
    [bin(x)] is negative when [x < edges[0]]; and [bin(x) = nbins] when
    [x >= edges[-1]]. *)
Theorem bin_half_open (h : heap) (a : HistogramAxis) (x : Q) :
  axis_ok h a = true ->
  let e := edges h a in
  ((item e 0 <= x < item e (-1))%Q ->
   0 <= bin h a x < nbins a /\
   (item e (bin h a x) <= x < item e (bin h a x + 1))%Q /\
   forall i, 0 <= i < nbins a ->
             (item e i <= x < item e (i + 1))%Q -> i = bin h a x) /\
  (forall i, 0 <= i < nbins a -> bin h a (item e i) = i) /\
  ((x < item e 0)%Q -> bin h a x < 0) /\
  ((item e (-1) <= x)%Q -> bin h a x = nbins a).
Proof.
  intros ok e. split; [|split; [|split]].
  - intros H. destruct (@bin_inside h a ok x H) as [H1 H2].
    repeat split; try tauto; try lia.
    intros i Hi Hx. symmetry. now apply bin_unique.
  - intros i Hi. now apply bin_edge.
  - now apply bin_below.
  - now apply bin_above.
Qed.

(** ** edge_index *)

(** With [snap='nearest'] a tie goes to the [else] branch of
    [if dlow < dhigh], that is to [highbin]. *)
Lemma edge_index_nearest (h : heap) (a : HistogramAxis) (x low high : Q) :
  getitem h (_edges a) (lowbin h a x) = Ok low ->
  getitem h (_edges a) (highbin h a x) = Ok high ->
  edge_index h a x "nearest"
  = Ok (Index (if Qltb (Qabs (x - low)) (Qabs (high - x))
               then lowbin h a x else highbin h a x)).
Proof.
  intros Hl Hh. unfold edge_index.
  change (snap_in "nearest" _) with true.
  change (String.eqb "nearest" "nearest") with true.
  cbv iota beta zeta. simpl negb. cbv iota.
  rewrite Hl, Hh. destruct (Qltb _ _); reflexivity.
Qed.

(** C2 as stated fails: at [x = 1/2] on edges [0, 1, 2, 3] the bounding
    edges [0] and [1] are equally far, and the index returned is [1], not
    the low index [0]. *)
Lemma edge_index_tie_counterexample :
  ~ (forall low high,
        getitem Examples.heap0 (_edges Examples.axis0)
                (lowbin Examples.heap0 Examples.axis0 (1 # 2)) = Ok low ->
        getitem Examples.heap0 (_edges Examples.axis0)
                (highbin Examples.heap0 Examples.axis0 (1 # 2)) = Ok high ->
        (Qabs ((1 # 2) - low) == Qabs (high - (1 # 2)))%Q ->
        edge_index Examples.heap0 Examples.axis0 (1 # 2) "nearest"
        = Ok (Index (lowbin Examples.heap0 Examples.axis0 (1 # 2)))).
Proof.
  intros H.
  specialize (H 0%Q 1%Q eq_refl eq_refl eq_refl).
  vm_compute in H. discriminate H.
Qed.

(** C2, amended.  When the two bounding edges [low] and [high] of [x] are
    exactly equidistant from [x] ([dlow == dhigh]),
    [edge_index(x, 'nearest')] returns [highbin], the index of the high
    bounding edge. *)
Theorem edge_index_tie_high (h : heap) (a : HistogramAxis) (x low high : Q) :
  getitem h (_edges a) (lowbin h a x) = Ok low ->
  getitem h (_edges a) (highbin h a x) = Ok high ->
  (Qabs (x - low) == Qabs (high - x))%Q ->
  edge_index h a x "nearest" = Ok (Index (highbin h a x)).
Proof.
  intros Hl Hh Htie. rewrite (edge_index_nearest _ _ _ Hl Hh).
  assert (E : Qltb (Qabs (x - low)) (Qabs (high - x)) = false).
  { apply Qltb_false. rewrite Htie. apply Qle_refl. }
  now rewrite E.
Qed.

(** The tie at [x = 1/2] between the edges [0] and [1]. *)
Lemma edge_index_tie_high_witness :
  edge_index Examples.heap0 Examples.axis0 (1 # 2) "nearest"
  = Ok (Index 1).
Proof.
  exact (@edge_index_tie_high Examples.heap0 Examples.axis0 (1 # 2) 0 1
           eq_refl eq_refl eq_refl).
Defined.

(** ** Slices as views *)

Lemma map_nth_seq (l : list Q) :
  map (fun k => nth k l 0%Q) (seq 0 (List.length l)) = l.
Proof.
  induction l as [|x t IH]; trivial.
  cbn [List.length seq map nth]. f_equal.
  rewrite <- seq_shift, map_map. exact IH.
Qed.

(** A fresh array reads back what it was allocated with. *)
Lemma values_alloc (h : heap) (l : list Q) (sh : list nat) :
  prod sh = List.length l ->
  values (h ++ [l]) (mk_ndarray (List.length h) 0 1 sh) = l.
Proof.
  intros Hn. unfold values, load. cbn [base offset stride shape].
  rewrite Hn, nth_middle.
  rewrite <- (map_nth_seq l) at 2. apply map_ext. intros k.
  f_equal. lia.
Qed.

(** The items of [a[start:stop:step]] are items of [a]. *)
Lemma values_getslice (h : heap) (a v : ndarray) (start stop : option Z)
      (step : Z) :
  getslice a start stop step = Ok v ->
  let '(first, count) := slice_indices (Z.of_nat (len a)) start stop step in
  values h v
  = map (fun k => load h a (first + Z.of_nat k * step)) (seq 0 count).
Proof.
  unfold getslice. destruct (step =? 0); [discriminate|].
  destruct (slice_indices _ _ _ _) as [first count].
  intros [= <-]. unfold values, load. cbn [base offset stride shape prod].
  apply map_ext. intros k. do 2 f_equal. ring.
Qed.

Lemma slice_indices_from_1 (n : nat) :
  slice_indices (Z.of_nat n) (Some 1) None 1
  = (Z.min 1 (Z.of_nat n), (n - 1)%nat).
Proof.
  unfold slice_indices, clamp_index.
  change (1 <? 0) with false. cbv iota.
  destruct (Z.leb_spec (Z.of_nat n) 1) as [Hn|Hn].
  - destruct (Z.ltb_spec (Z.of_nat n) (Z.of_nat n)); [lia|].
    f_equal; lia.
  - destruct (Z.ltb_spec 1 (Z.of_nat n)); [|lia].
    rewrite Z.div_1_r. f_equal; lia.
Qed.

Lemma tl_values (h : heap) (a : ndarray) :
  tl (values h a)
  = map (fun k => load h a (1 + Z.of_nat k)) (seq 0 (prod (shape a) - 1)).
Proof.
  unfold values. destruct (prod (shape a)) as [|n]; trivial.
  cbn [seq map tl]. rewrite Nat.sub_succ, Nat.sub_0_r.
  rewrite <- seq_shift, map_map. apply map_ext. intros k. f_equal. lia.
Qed.

(** [e[1:]] holds the tail of [e]. *)
Lemma getslice_tail (h : heap) (e : ndarray) :
  (ndim e =? 1)%nat = true ->
  exists e1, getslice e (Some 1) None 1 = Ok e1 /\
             values h e1 = tl (values h e).
Proof.
  intros Hd. pose proof (ndim1_shape _ Hd) as Hsh.
  destruct (getslice e (Some 1) None 1) as [e1|x] eqn:E.
  - exists e1. split; trivial.
    pose proof (values_getslice h _ _ _ _ E) as Hv.
    rewrite slice_indices_from_1 in Hv. rewrite Hv, tl_values, Hsh.
    cbn [prod]. destruct (len e) as [|n]; trivial.
    apply map_ext. intros k. f_equal.
    rewrite Z.min_l by lia. lia.
  - unfold getslice in E. change (1 =? 0) with false in E. cbv iota in E.
    destruct (slice_indices _ _ _ _); discriminate.
Qed.

(** ** The edges setter *)

(** On a one-dimensional array the setter stores the array itself and
    raises [ValueError] exactly when some adjacent pair is not increasing;
    the heap is not touched. *)
Lemma set_edges_array (h : heap) (e : ndarray) :
  (ndim e =? 1)%nat = true ->
  set_edges (PArray e) h
  = (if strictly_increasing (values h e) then Ok e else Raise ValueError, h).
Proof.
  intros Hd. destruct (getslice_tail h e Hd) as (e1 & Hs & Hv).
  unfold set_edges. cbn [bind ret]. unfold bind at 1. unfold ret at 1.
  rewrite Hd. cbn [negb]. unfold bind, lift, read. rewrite Hs, Hv.
  fold (strictly_increasing (values h e)).
  destruct (strictly_increasing (values h e)); reflexivity.
Qed.

Lemma set_edges_list (h : heap) (l : list Q) :
  set_edges (PList l) h
  = (if strictly_increasing l
     then Ok (mk_ndarray (List.length h) 0 1 [List.length l])
     else Raise ValueError, h ++ [l]).
Proof.
  set (e := mk_ndarray (List.length h) 0 1 [List.length l]).
  assert (Hd : (ndim e =? 1)%nat = true) by reflexivity.
  destruct (getslice_tail (h ++ [l]) e Hd) as (e1 & Hs & Hv).
  assert (Hl : values (h ++ [l]) e = l) by (apply values_alloc; reflexivity).
  unfold set_edges. unfold bind at 1. cbn [asarray]. unfold alloc at 1.
  fold e. rewrite Hd. cbn [negb]. unfold bind, lift, read.
  rewrite Hs, Hv, Hl. fold (strictly_increasing l).
  destruct (strictly_increasing l); reflexivity.
Qed.

(** Fewer than two points pass the test: there is no pair to compare. *)
Lemma strictly_increasing_short (l : list Q) :
  (List.length l < 2)%nat -> strictly_increasing l = true.
Proof.
  destruct l as [|x [|y t]]; simpl; intros; trivial; lia.
Qed.

(** C8 as stated fails: a sequence of one point is assigned without any
    error. *)
Lemma edges_setter_short_counterexample :
  ~ ((List.length [5%Q] < 2)%nat \/ strictly_increasing [5%Q] = false ->
     fst (set_edges (PList [5%Q]) []) = Raise ValueError).
Proof.
  intros H. assert (L : (List.length [5%Q] < 2)%nat) by (simpl; lia).
  specialize (H (or_introl L)). vm_compute in H. discriminate H.
Qed.

(** C8, amended.  Assigning a one-dimensional sequence to [edges] raises
    [ValueError] whenever the sequence is not strictly increasing; a
    strictly increasing sequence is stored with its values; and a sequence
    of fewer than 2 points is accepted, since it has no adjacent pair to
    compare. *)
Theorem edges_setter_validation (h : heap) (o : pyobj) :
  one_dimensional o = true ->
  (strictly_increasing (items h o) = false ->
   fst (set_edges o h) = Raise ValueError) /\
  (strictly_increasing (items h o) = true ->
   exists e, fst (set_edges o h) = Ok e /\
             values (snd (set_edges o h)) e = items h o) /\
  ((List.length (items h o) < 2)%nat -> is_ok (fst (set_edges o h)) = true).
Proof.
  intros H1.
  assert (E : exists e,
             set_edges o h
             = (if strictly_increasing (items h o) then Ok e
                else Raise ValueError, snd (set_edges o h)) /\
             values (snd (set_edges o h)) e = items h o).
  { destruct o as [n|q|l|a]; try discriminate H1.
    - eexists. rewrite set_edges_list. split; [reflexivity|].
      cbn [snd items]. now apply values_alloc.
    - exists a. rewrite (set_edges_array h a H1). split; reflexivity. }
  destruct E as (e & E & Hv). repeat split.
  - intros Hs. rewrite E, Hs. reflexivity.
  - intros Hs. exists e. rewrite E at 1. rewrite Hs. split; trivial.
  - intros Hl. rewrite E, (strictly_increasing_short _ Hl). reflexivity.
Qed.

(** A decreasing pair, an increasing pair and a single point. *)
Lemma edges_setter_validation_witness :
  fst (set_edges (PList [3; 1]%Q) []) = Raise ValueError /\
  (exists e, fst (set_edges (PList [1; 3]%Q) []) = Ok e) /\
  is_ok (fst (set_edges (PList [5%Q]) [])) = true.
Proof.
  split; [|split].
  - apply (@edges_setter_validation [] (PList [3; 1]%Q) eq_refl).
    reflexivity.
  - destruct (@edges_setter_validation [] (PList [1; 3]%Q) eq_refl)
      as (_ & H & _).
    destruct (H eq_refl) as (e & He & _). now exists e.
  - apply (@edges_setter_validation [] (PList [5%Q]) eq_refl).
    simpl. lia.
Defined.

(** ** The constructor *)

(** C9 as stated fails: [HistogramAxis(100)] does not raise [TypeError]. *)
Lemma init_no_limits_counterexample :
  fst (__init__ (Bins (PInt 100)) LimNone None []) <> Raise TypeError.
Proof. vm_compute. discriminate. Qed.

(** A number given to the setter becomes a zero-dimensional array, which
    fails [assert e.ndim == 1]; the buffer of that array stays allocated. *)
Lemma set_edges_int (n : Z) (h : heap) :
  set_edges (PInt n) h = (Raise AssertionError, h ++ [[inject_Z n]]).
Proof.
  unfold set_edges. unfold bind at 1. cbn [asarray]. unfold alloc.
  change (ndim (mk_ndarray (List.length h) 0 1 []) =? 1)%nat with false.
  reflexivity.
Qed.

(** C9, amended.  Constructing a HistogramAxis from an integer bin count
    with no range limits raises [AssertionError]: the integer reaches the
    [edges] setter, becomes a zero-dimensional array and fails the
    setter's assertion that bin edges are one-dimensional. *)
Theorem init_no_limits_assertion (n : Z) (label : option pystr) (h : heap) :
  fst (__init__ (Bins (PInt n)) LimNone label h) = Raise AssertionError.
Proof.
  unfold __init__. cbn [has_iter andb deepcopy].
  unfold bind at 1. unfold ret at 1.
  unfold bind. rewrite set_edges_int. reflexivity.
Qed.

(** ** Equality *)

Lemma broadcast_raises (m n : nat) (x : exn) :
  broadcast m n = Raise x -> x = ValueError.
Proof.
  unfold broadcast.
  destruct (m =? n)%nat; [discriminate|].
  destruct (m =? 1)%nat; [discriminate|].
  destruct (n =? 1)%nat; [discriminate|].
  now intros [= <-].
Qed.

(** C10.  [==] on two axes always returns a boolean: the only error the
    closeness test raises is the [ValueError] of shapes that do not
    broadcast, and then the result is [False]. *)
Theorem eq_total (h : heap) (a b : HistogramAxis) :
  (exists r, __eq__ h a b = Ok r) /\
  (forall x, allclose h (_edges a) (_edges b) = Raise x ->
             __eq__ h a b = Ok false) /\
  (len (_edges a) <> len (_edges b) ->
   len (_edges a) <> 1%nat -> len (_edges b) <> 1%nat ->
   __eq__ h a b = Ok false).
Proof.
  unfold __eq__, allclose.
  destruct (broadcast (len (_edges a)) (len (_edges b))) as [n|x] eqn:E.
  - split; [eexists; reflexivity|]. split; [discriminate|].
    intros H1 H2 H3. exfalso. unfold broadcast in E.
    apply Nat.eqb_neq in H1, H2, H3. rewrite H1, H2, H3 in E. discriminate.
  - rewrite (broadcast_raises _ _ E).
    split; [eexists; reflexivity|]. split; reflexivity.
Qed.

(** Four edges against three: not broadcastable, hence [False]. *)
Lemma eq_total_witness :
  __eq__ Examples.heap0 Examples.axis0 Examples.axis1 = Ok false.
Proof.
  apply (@eq_total Examples.heap0 Examples.axis0 Examples.axis1);
    discriminate.
Defined.

(** The constructor on a one-dimensional array: the array is copied into a
    new buffer, and the copy is validated by the setter. *)
Lemma init_from_array (h : heap) (v : ndarray) (lab : option pystr) :
  (ndim v =? 1)%nat = true ->
  __init__ (Bins (PArray v)) LimNone lab h
  = (if strictly_increasing (values h v)
     then Ok (mk_axis (mk_ndarray (List.length h) 0 1 (shape v))
                      (set_label lab))
     else Raise ValueError,
     h ++ [values h v]).
Proof.
  intros Hd.
  set (c := mk_ndarray (List.length h) 0 1 (shape v)).
  assert (Hc : (ndim c =? 1)%nat = true) by exact Hd.
  assert (Hv : values (h ++ [values h v]) c = values h v).
  { apply values_alloc. now rewrite values_length. }
  assert (E : forall l : option pystr,
             (c0 <- deepcopy (PArray v) ;;
              e <- set_edges c0 ;;
              ret (mk_axis e l))%py h
             = (if strictly_increasing (values h v)
                then Ok (mk_axis c l) else Raise ValueError,
                h ++ [values h v])).
  { intros l. cbn [deepcopy]. unfold bind at 1 2. unfold copy, alloc.
    fold c. unfold ret at 1. unfold bind.
    rewrite (set_edges_array _ c Hc), Hv.
    destruct (strictly_increasing (values h v)); reflexivity. }
  unfold __init__. cbn [has_iter andb].
  destruct lab as [s|]; cbn [is_none]; apply E.
Qed.

(** The invariant holds for every axis the constructor returns from a
    one-dimensional array. *)
Lemma init_from_array_ok (h h' : heap) (v : ndarray) (lab : option pystr)
      (a : HistogramAxis) :
  (ndim v =? 1)%nat = true ->
  __init__ (Bins (PArray v)) LimNone lab h = (Ok a, h') ->
  axis_ok h' a = true /\ edges h' a = values h v /\ shape (_edges a) = shape v.
Proof.
  intros Hd. rewrite (init_from_array h v lab Hd).
  destruct (strictly_increasing (values h v)) eqn:Hs; [|discriminate].
  intros [= <- <-].
  assert (Hv : edges (h ++ [values h v])
                     (mk_axis (mk_ndarray (List.length h) 0 1 (shape v))
                              (set_label lab)) = values h v).
  { apply values_alloc. now rewrite values_length. }
  repeat split; trivial.
  unfold axis_ok. rewrite Hv, Hs. cbn [_edges]. unfold ndim in *.
  cbn [shape]. now rewrite Hd.
Qed.

(** ** cut *)

Lemma slice_indices_full (n : nat) :
  slice_indices (Z.of_nat n) (Some 0) (Some (Z.of_nat n - 1 + 1)) 1 = (0, n).
Proof.
  unfold slice_indices, clamp_index.
  change (0 <? 0) with false. change (1 <? 0) with false. cbv iota.
  replace (Z.of_nat n - 1 + 1) with (Z.of_nat n) by lia.
  rewrite Z.leb_refl.
  destruct (Z.ltb_spec (Z.of_nat n) 0); [lia|].
  destruct (Z.leb_spec (Z.of_nat n) 0).
  - destruct (Z.ltb_spec (Z.of_nat n) (Z.of_nat n)); [lia|]. f_equal; lia.
  - destruct (Z.ltb_spec 0 (Z.of_nat n)); [|lia].
    rewrite Z.div_1_r. f_equal; lia.
Qed.

(** [e[0:len(e)]] is a view with the fields of [e]. *)
Lemma getslice_full (e : ndarray) :
  shape e = [len e] ->
  getslice e (Some 0) (Some (Z.of_nat (len e) - 1 + 1)) 1 = Ok e.
Proof.
  intros Hsh. unfold getslice. change (1 =? 0) with false. cbv iota.
  rewrite slice_indices_full. rewrite <- Hsh.
  destruct e as [b o s sh]. cbn [Np.base Np.offset Np.stride Np.shape].
  f_equal. f_equal; lia.
Qed.

(** The mask of a cut without bounds: every bin is kept. *)
Lemma mask_full (n : nat) :
  (1 <= n)%nat ->
  exists m, zeros (Z.of_nat n - 1) = Ok m /\
            setslice_true m 0 (Z.of_nat n - 1) = repeat true (n - 1).
Proof.
  intros Hn. exists (repeat false (n - 1)). split.
  - unfold zeros. destruct (Z.ltb_spec (Z.of_nat n - 1) 0); [lia|].
    do 2 f_equal. lia.
  - unfold setslice_true. rewrite repeat_length.
    replace (Z.of_nat n - 1) with (Z.of_nat (n - 1) - 1 + 1) by lia.
    rewrite slice_indices_full. cbn [Z.to_nat firstn app Nat.add].
    rewrite skipn_all2 by (rewrite repeat_length; lia).
    apply app_nil_r.
Qed.

(** C5.  On an axis with at least one edge, [cut(None, None)] returns an
    axis with the same edges and a mask that is [True] for every bin. *)
Theorem cut_none_identity (h : heap) (a : HistogramAxis) :
  axis_ok h a = true ->
  (1 <= len (_edges a))%nat ->
  exists a' h',
    cut a None None (Snap "nearest") h
    = (Ok (a', repeat true (Z.to_nat (nbins a))), h') /\
    edges h' a' = edges h a.
Proof.
  intros ok Hn. destruct (axis_ok_inv h a ok) as (Hsh & Hl & Hs).
  assert (Hd : (ndim (_edges a) =? 1)%nat = true).
  { unfold ndim. now rewrite Hsh. }
  destruct (mask_full Hn) as (m & Hz & Hm).
  unfold cut. cbn [forallb snap_in existsb String.eqb Ascii.eqb Bool.eqb
                   andb orb negb].
  unfold bind at 1. unfold ret at 1.
  unfold bind at 1. unfold ret at 1.
  unfold bind at 1. unfold lift at 1. rewrite (getslice_full _ Hsh).
  unfold bind at 1. unfold lift at 1. unfold nbins at 1. rewrite Hz.
  unfold bind at 1. unfold ret at 1.
  unfold bind at 1. unfold ret at 1.
  unfold bind. rewrite (init_from_array h _ (_label a) Hd).
  fold (edges h a). rewrite Hs. unfold ret. rewrite Hm.
  replace (Z.to_nat (nbins a)) with (len (_edges a) - 1)%nat
    by (unfold nbins; lia).
  do 2 eexists. split; [reflexivity|].
  apply values_alloc. unfold edges. rewrite values_length. reflexivity.
Qed.

(** ** mergebins *)

Lemma nth_map_seq (f : nat -> Q) (count i : nat) :
  (i < count)%nat -> nth i (map f (seq 0 count)) 0%Q = f i.
Proof.
  intros Hi. rewrite (nth_indep _ 0%Q (f 0%nat))
    by now rewrite length_map, length_seq.
  rewrite map_nth, seq_nth by trivial. reflexivity.
Qed.

Lemma strictly_increasing_map_seq (f : nat -> Q) (count : nat) :
  (forall k, (S k < count)%nat -> (f k < f (S k))%Q) ->
  strictly_increasing (map f (seq 0 count)) = true.
Proof.
  intros H. apply strictly_increasing_step. intros i.
  rewrite length_map, length_seq. intros Hi.
  rewrite !nth_map_seq by lia. now apply H.
Qed.

(** Item [j] of a one-dimensional array, read from the heap or from the
    list of its values. *)
Lemma load_values (h : heap) (e : ndarray) (j : Z) :
  shape e = [len e] -> 0 <= j < Z.of_nat (len e) ->
  load h e j = item (values h e) j.
Proof.
  intros Hsh Hj. rewrite item_nonneg by lia. unfold values.
  rewrite Hsh. cbn [prod]. rewrite nth_map_seq by lia.
  f_equal. lia.
Qed.

Lemma slice_indices_stride (len n : Z) :
  0 <= len -> 1 <= n ->
  slice_indices len None None n = (0, Z.to_nat ((len - 1) / n + 1)).
Proof.
  intros Hl Hn. unfold slice_indices.
  destruct (Z.ltb_spec n 0); [lia|].
  destruct (Z.ltb_spec 0 len).
  - replace (len - 0 - 1) with (len - 1) by lia. reflexivity.
  - assert (len = 0) by lia. subst len.
    assert ((0 - 1) / n = -1).
    { symmetry. apply (Z.div_unique (0 - 1) n (-1) (n - 1)); lia. }
    f_equal. lia.
Qed.

(** C6.  When [n >= 1] divides the number of bins, [mergebins(n, snap,
    clip)] returns, for [snap] in ['low', 'high'] and either [clip], an axis
    whose edges are every [n]-th edge [edges[0], edges[n], ..., edges[nbins]]
    and whose number of bins is [nbins / n]. *)
Theorem mergebins_divisible (h : heap) (a : HistogramAxis) (n : Z)
        (snap : string) (clip : bool) :
  axis_ok h a = true ->
  1 <= n ->
  nbins a mod n = 0 ->
  snap_in snap ["low"; "high"]%string = true ->
  exists a' h',
    mergebins a n snap clip h = (Ok a', h') /\
    edges h' a'
    = map (fun k => item (edges h a) (Z.of_nat k * n))
          (seq 0 (Z.to_nat (nbins a / n + 1))) /\
    nbins a' = nbins a / n.
Proof.
  intros ok Hn Hm Hsnap. destruct (axis_ok_inv h a ok) as (Hsh & Hl & Hs).
  set (count := Z.to_nat (nbins a / n + 1)).
  pose proof (Z.div_mod (nbins a) n ltac:(lia)) as Hdm. rewrite Hm in Hdm.
  assert (Hq : -1 <= nbins a / n).
  { unfold nbins in *.
    destruct (Z.lt_ge_cases (nbins a / n) (-1)); [|unfold nbins in *; lia].
    unfold nbins in *. nia. }
  assert (Hrange : forall k, (k < count)%nat ->
                             0 <= Z.of_nat k * n < Z.of_nat (len (_edges a))).
  { intros k Hk. unfold count, nbins in *. nia. }
  destruct (getslice (_edges a) None None n) as [v|x] eqn:Ev.
  2:{ unfold getslice in Ev. destruct (Z.eqb_spec n 0); [lia|].
      destruct (slice_indices _ _ _ _); discriminate. }
  pose proof (values_getslice h _ _ _ _ Ev) as Hv.
  rewrite slice_indices_stride in Hv by lia. fold (nbins a) in Hv.
  fold count in Hv.
  assert (Hv' : values h v
                = map (fun k => item (edges h a) (Z.of_nat k * n))
                      (seq 0 count)).
  { rewrite Hv. apply map_ext_in. intros k Hk. apply in_seq in Hk.
    rewrite Z.add_0_l. apply load_values; trivial. apply Hrange. lia. }
  assert (Hshv : shape v = [count]).
  { unfold getslice in Ev. destruct (n =? 0); [discriminate|].
    rewrite slice_indices_stride in Ev by lia. fold (nbins a) in Ev.
    now injection Ev as <-. }
  assert (Hdv : (ndim v =? 1)%nat = true).
  { unfold ndim. now rewrite Hshv. }
  assert (Hinc : strictly_increasing (values h v) = true).
  { rewrite Hv'. apply strictly_increasing_map_seq. intros k Hk.
    pose proof (Hrange k ltac:(lia)). pose proof (Hrange (S k) ltac:(lia)).
    rewrite !item_nonneg by lia.
    apply strictly_increasing_lt; trivial. rewrite Hl. nia. }
  unfold mergebins. rewrite Hsnap. cbn [negb].
  destruct (Z.eqb_spec n 0); [lia|]. rewrite Hm.
  change (0 =? 0) with true. cbv iota.
  unfold bind, lift. rewrite Ev, (init_from_array h v (_label a) Hdv), Hinc.
  do 2 eexists. split; [reflexivity|]. split.
  - unfold edges. cbn [_edges]. rewrite values_alloc; trivial.
    now rewrite values_length.
  - unfold nbins at 1. cbn [_edges]. unfold len. cbn [shape].
    rewrite Hshv. cbn [hd]. unfold count. lia.
Qed.

(** ** Uniform axes: linspace *)

Lemma length_list_set {A} (l : list A) (j : nat) (v : A) :
  List.length (list_set l j v) = List.length l.
Proof.
  revert j. induction l as [|x t IH]; intros [|j]; simpl; auto.
Qed.

Lemma nth_list_set_same {A} (l : list A) (j : nat) (v d : A) :
  (j < List.length l)%nat -> nth j (list_set l j v) d = v.
Proof.
  revert j. induction l as [|x t IH]; intros [|j] Hj; simpl in *;
    try lia; trivial.
  apply IH. lia.
Qed.

Lemma nth_list_set_other {A} (l : list A) (i j : nat) (v d : A) :
  i <> j -> nth i (list_set l j v) d = nth i l d.
Proof.
  revert i j. induction l as [|x t IH]; intros [|i] [|j] Hij; simpl;
    trivial; try lia.
  apply IH. lia.
Qed.


(** A zero added to [x] gives the number [x], when it gives a number. *)
Lemma add_zero_l (s : bool) (x : F64.float) :
  F64.finite (F64.add (S754_zero s) x) = true ->
  F64.to_Q (F64.add (S754_zero s) x) = F64.to_Q x.
Proof.
  destruct x as [sx|sx| |sx m e]; cbn; intros H; try discriminate; trivial.
  destruct s, sx; reflexivity.
Qed.





(** A float that is a number is read back from the array as it is. *)
Lemma is_float_value (q : Q) :
  F64.is_float q = true -> (F64.to_Q (F64.of_Q q) == q)%Q.
Proof.
  unfold F64.is_float. intros H. apply andb_prop in H.
  now apply Qeq_bool_iff.
Qed.




(** ** The receiver of cut with snap='clip' *)

(** C3 fails on the code.  [newedges = self.edges[lowi:highi+1]] is a view
    on the buffer of [self.edges], so [newedges[0] = low] and
    [newedges[-1] = high] write into the receiver before the constructor
    copies the edges: after [cut(1/2, 5/2, 'clip')] on edges [0, 1, 2, 3]
    the receiver itself has edges [1/2, 1, 2, 5/2]. *)
Theorem cut_clip_mutates_receiver :
  edges Examples.heap0 Examples.axis0 = [0; 1; 2; 3]%Q /\
  exists a' mask h',
    cut Examples.axis0 (Some (1 # 2)) (Some (5 # 2)) (Snap "clip")
        Examples.heap0 = (Ok (a', mask), h') /\
    edges h' a' = [1 # 2; 1; 2; 5 # 2]%Q /\
    edges h' Examples.axis0 = [1 # 2; 1; 2; 5 # 2]%Q.
Proof.
  split; [reflexivity|]. do 3 eexists. split; [vm_compute; reflexivity|].
  split; reflexivity.
Qed.

(** C4 fails on the code when [high] is the value of an edge.  On edges
    [0, 1, 2, 3], [cut(1/2, 2, 'clip')] resolves [high = 2] to edge index
    [3], overwrites that edge with [2] and hands [1/2, 1, 2, 2] to the
    constructor, whose setter raises [ValueError]; no axis is returned. *)
Theorem cut_clip_high_on_edge :
  (item (edges Examples.heap0 Examples.axis0) 0 < 1 # 2)%Q /\
  (1 # 2 < 2)%Q /\
  (2 < item (edges Examples.heap0 Examples.axis0) (-1))%Q /\
  cut Examples.axis0 (Some (1 # 2)) (Some 2%Q) (Snap "clip") Examples.heap0
  = (Raise ValueError,
     [[1 # 2; 1; 2; 2]%Q; [1 # 2; 1; 2; 2]%Q]).
Proof.
  repeat split.
Qed.

(** ** cut with snap='clip' away from the edges *)

Lemma edge_index_low (h : heap) (a : HistogramAxis) (x : Q) :
  edge_index h a x "low" = Ok (Index (lowbin h a x)).
Proof. reflexivity. Qed.

Lemma edge_index_high (h : heap) (a : HistogramAxis) (x : Q) :
  edge_index h a x "high" = Ok (Index (highbin h a x)).
Proof. reflexivity. Qed.

Lemma slice_indices_range (n lo hi : Z) :
  0 <= lo -> lo < hi -> hi <= n ->
  slice_indices n (Some lo) (Some hi) 1 = (lo, Z.to_nat (hi - lo)).
Proof.
  intros H0 H1 H2. unfold slice_indices, clamp_index.
  change (1 <? 0) with false. cbv iota.
  destruct (Z.ltb_spec lo 0); [lia|].
  destruct (Z.leb_spec n lo); [lia|].
  destruct (Z.ltb_spec hi 0); [lia|].
  assert (E : (if n <=? hi then n else hi) = hi).
  { destruct (Z.leb_spec n hi); lia. }
  rewrite E. destruct (Z.ltb_spec lo hi); [|lia].
  rewrite Z.div_1_r. do 2 f_equal. lia.
Qed.

Section CutClip.

Variable h : heap.
Variable a : HistogramAxis.
Variables low high : Q.
Hypothesis ok : axis_ok h a = true.
Hypothesis wf : wf_view h (_edges a).
Hypothesis low_inside : (item (edges h a) 0 < low)%Q.
Hypothesis low_high : (low < high)%Q.
Hypothesis high_inside : (high < item (edges h a) (-1))%Q.
Hypothesis high_off_edge : (item (edges h a) (bin h a high) < high)%Q.

(** The two bins involved. *)
Lemma clip_bins :
  0 <= bin h a low /\ bin h a low <= bin h a high /\
  bin h a high + 1 < Z.of_nat (len (_edges a)) /\
  (low < item (edges h a) (bin h a low + 1))%Q /\
  lowbin h a low = bin h a low /\
  highbin h a high = bin h a high + 1.
Proof.
  destruct (axis_ok_inv h a ok) as (Hsh & Hl & Hs).
  assert (Il : (item (edges h a) 0 <= low < item (edges h a) (-1))%Q)
    by (split; lra).
  assert (Ih : (item (edges h a) 0 <= high < item (edges h a) (-1))%Q)
    by (split; lra).
  destruct (@bin_inside h a ok low Il) as (Bl & Ll & Ul).
  destruct (@bin_inside h a ok high Ih) as (Bh & Lh & Uh).
  unfold nbins in Bl, Bh.
  assert (Hle : bin h a low <= bin h a high).
  { destruct (Z.le_gt_cases (bin h a low) (bin h a high)); trivial.
    exfalso. rewrite !item_nonneg in Ll, Uh by lia.
    assert (nth (Z.to_nat (bin h a high + 1)) (edges h a) 0
            <= nth (Z.to_nat (bin h a low)) (edges h a) 0)%Q
      by (apply strictly_increasing_le; trivial; lia).
    lra. }
  unfold lowbin, highbin. repeat split; trivial; lia.
Qed.

(** The call returns an axis from [low] to [high]; and the receiver itself
    now has [low] and [high] where its bounding edges were. *)
Lemma cut_clip_exact :
  exists a' mask h',
    cut a (Some low) (Some high) (Snap "clip") h = (Ok (a', mask), h') /\
    item (edges h' a') 0 = low /\
    item (edges h' a') (-1) = high /\
    item (edges h' a) (lowbin h a low) = low /\
    item (edges h' a) (highbin h a high) = high.
Proof.
  destruct (axis_ok_inv h a ok) as (Hsh & Hl & Hs).
  destruct clip_bins as (B0 & Ble & Bhi & Ul & Elow & Ehigh).
  destruct wf as (Wb & Wst & Wpos).
  set (bl := bin h a low) in *. set (bh := bin h a high) in *.
  set (e := _edges a) in *.
  set (count := Z.to_nat (bh + 1 + 1 - bl)).
  set (v := mk_ndarray (base e) (offset e + bl * stride e) (stride e * 1)
                       [count]).
  set (pos := fun k : Z => Z.to_nat (offset e + k * stride e)).
  set (buf := nth (base e) h []).
  set (buf2 := list_set (list_set buf (pos bl) low) (pos (bh + 1)) high).
  set (h1 := list_set h (base e) (list_set buf (pos bl) low)).
  set (h2 := list_set h1 (base e) buf2).
  assert (Hpos : forall k, 0 <= k < Z.of_nat (len e) ->
                           (pos k < List.length buf)%nat).
  { intros k Hk. unfold pos. specialize (Wpos k Hk). fold e buf in Wpos. lia. }
  assert (Hinj : forall j k, 0 <= j < Z.of_nat (len e) ->
                             0 <= k < Z.of_nat (len e) ->
                             pos j = pos k -> j = k).
  { intros j k Hj Hk E. unfold pos in E.
    pose proof (Wpos j Hj). pose proof (Wpos k Hk). nia. }
  assert (Hb1 : nth (base e) h1 [] = list_set buf (pos bl) low).
  { unfold h1. now apply nth_list_set_same. }
  assert (Hb2 : nth (base e) h2 [] = buf2).
  { unfold h2. apply nth_list_set_same. unfold h1.
    now rewrite length_list_set. }
  assert (Hread : forall k, 0 <= k < Z.of_nat (len e) ->
            nth (pos k) buf2 0%Q
            = if k =? bl then low
              else if k =? bh + 1 then high
                   else item (edges h a) k).
  { intros k Hk. unfold buf2.
    destruct (Z.eqb_spec k bl) as [->|Nl].
    - rewrite nth_list_set_other, nth_list_set_same; trivial.
      + apply Hpos. lia.
      + intros E. apply Hinj in E; lia.
    - destruct (Z.eqb_spec k (bh + 1)) as [->|Nh].
      + rewrite nth_list_set_same; trivial.
        rewrite length_list_set. apply Hpos. lia.
      + rewrite !nth_list_set_other.
        * unfold edges. fold e.
          rewrite <- (@load_values h e k Hsh Hk). reflexivity.
        * intros E. apply Hinj in E; lia.
        * intros E. apply Hinj in E; lia. }
  assert (Hslice : getslice e (Some bl) (Some (bh + 1 + 1)) 1 = Ok v).
  { unfold getslice. change (1 =? 0) with false. cbv iota.
    rewrite slice_indices_range by lia. reflexivity. }
  assert (Hc : (2 <= count)%nat) by (unfold count; lia).
  assert (Hw1 : setitem v 0 low h = (Ok tt, h1)).
  { unfold setitem, check_index, v. cbn [len shape hd].
    destruct (Z.ltb_spec 0 (- Z.of_nat count)); [lia|].
    destruct (Z.leb_spec (Z.of_nat count) 0); [lia|].
    cbn [orb]. change (0 <? 0) with false. cbv iota. cbn [base offset stride].
    replace (offset e + bl * stride e + 0 * (stride e * 1))
      with (offset e + bl * stride e) by ring.
    reflexivity. }
  assert (Hw2 : setitem v (-1) high h1 = (Ok tt, h2)).
  { unfold setitem, check_index, v. cbn [len shape hd].
    destruct (Z.ltb_spec (-1) (- Z.of_nat count)); [lia|].
    destruct (Z.leb_spec (Z.of_nat count) (-1)); [lia|].
    cbn [orb]. change (-1 <? 0) with true. cbv iota. cbn [base offset stride].
    rewrite Hb1.
    replace (offset e + bl * stride e
             + (-1 + Z.of_nat count) * (stride e * 1))
      with (offset e + (bh + 1) * stride e)
      by (unfold count; rewrite Z2Nat.id by lia; ring).
    reflexivity. }
  assert (Hz : exists m, zeros (nbins a) = Ok m).
  { unfold zeros, nbins. fold e.
    destruct (Z.ltb_spec (Z.of_nat (len e) - 1) 0); [lia|]. eauto. }
  destruct Hz as (m & Hz).
  set (f := fun k : nat =>
              if (k =? 0)%nat then low
              else if (k =? count - 1)%nat then high
                   else item (edges h a) (bl + Z.of_nat k)).
  assert (Hv : values h2 v = map f (seq 0 count)).
  { unfold values. cbn [v shape prod]. apply map_ext_in. intros k Hk.
    apply in_seq in Hk. unfold load. cbn [v base offset stride].
    rewrite Hb2.
    replace (offset e + bl * stride e + Z.of_nat k * (stride e * 1))
      with (offset e + (bl + Z.of_nat k) * stride e) by ring.
    fold (pos (bl + Z.of_nat k)).
    rewrite Hread by (unfold count in Hk; lia). unfold f.
    destruct (Nat.eqb_spec k 0) as [->|N0].
    - destruct (Z.eqb_spec (bl + Z.of_nat 0) bl); [reflexivity|lia].
    - destruct (Z.eqb_spec (bl + Z.of_nat k) bl); [lia|].
      destruct (Nat.eqb_spec k (count - 1)) as [->|N1].
      + destruct (Z.eqb_spec (bl + Z.of_nat (count - 1)) (bh + 1));
          [reflexivity | unfold count in *; lia].
      + destruct (Z.eqb_spec (bl + Z.of_nat k) (bh + 1));
          [unfold count in *; lia | reflexivity]. }
  assert (Hinc : strictly_increasing (values h2 v) = true).
  { rewrite Hv. apply strictly_increasing_map_seq. intros k Hk. unfold f.
    destruct (Nat.eqb_spec (S k) 0); [lia|].
    assert (Hmid : forall j, (0 < j < count - 1)%nat ->
              (item (edges h a) (bl + Z.of_nat j)
               < item (edges h a) (bl + Z.of_nat (S j)))%Q).
    { intros j Hj. unfold count in Hj. rewrite !item_nonneg by lia.
      apply strictly_increasing_lt; trivial. rewrite Hl. fold e. lia. }
    destruct (Nat.eqb_spec k 0) as [->|N0].
    - destruct (Nat.eqb_spec 1 (count - 1)); [exact low_high|].
      replace (bl + Z.of_nat 1) with (bl + 1) by lia. exact Ul.
    - destruct (Nat.eqb_spec k (count - 1)); [lia|].
      destruct (Nat.eqb_spec (S k) (count - 1)) as [E|E].
      + replace (bl + Z.of_nat k) with bh by (unfold count in E; lia).
        exact high_off_edge.
      + apply Hmid. lia. }
  assert (Hdv : (ndim v =? 1)%nat = true) by reflexivity.
  set (a' := mk_axis (mk_ndarray (List.length h2) 0 1 (shape v))
                     (set_label (_label a))).
  set (h' := h2 ++ [values h2 v]).
  assert (Hcut : cut a (Some low) (Some high) (Snap "clip") h
                 = (Ok (a', setslice_true m bl (bh + 1)), h')).
  { unfold cut.
    cbn [forallb snap_in existsb String.eqb Ascii.eqb Bool.eqb
         andb orb negb clip_or_expand].
    unfold bind at 1. rewrite edge_index_low. cbn [as_index].
    unfold bind at 1. rewrite edge_index_high. cbn [as_index].
    rewrite Elow, Ehigh. fold e.
    unfold bind at 1. unfold lift at 1. rewrite Hslice.
    unfold bind at 1. unfold lift at 1. rewrite Hz.
    unfold bind at 1. rewrite Hw1.
    unfold bind at 1. rewrite Hw2.
    unfold bind. rewrite (init_from_array h2 v (_label a) Hdv), Hinc.
    reflexivity. }
  assert (Hnew : edges h' a' = map f (seq 0 count)).
  { unfold edges, h', a'. cbn [_edges]. rewrite values_alloc; trivial.
    now rewrite values_length. }
  assert (Hrecv : forall k, 0 <= k < Z.of_nat (len e) ->
            item (edges h' a) k = nth (pos k) buf2 0%Q).
  { intros k Hk. unfold edges. fold e.
    rewrite <- (@load_values h' e k Hsh Hk). unfold load, h'.
    rewrite app_nth1
      by (unfold h2, h1; now rewrite !length_list_set).
    now rewrite Hb2. }
  exists a', (setslice_true m bl (bh + 1)), h'.
  split; [exact Hcut|]. split; [|split; [|split]].
  - rewrite Hnew, item_nonneg, nth_map_seq by lia. reflexivity.
  - rewrite Hnew, item_last, length_map, length_seq, nth_map_seq by lia.
    unfold f. destruct (Nat.eqb_spec (count - 1) 0); [lia|].
    now rewrite Nat.eqb_refl.
  - rewrite Elow, Hrecv, Hread by lia. now rewrite Z.eqb_refl.
  - rewrite Ehigh, Hrecv, Hread by lia.
    destruct (Z.eqb_spec (bh + 1) bl); [lia|]. now rewrite Z.eqb_refl.
Qed.

End CutClip.

(** Whenever [low] is not itself the value of an edge, the receiver comes
    out of the call with different edges. *)
Lemma cut_clip_changes_receiver (h : heap) (a : HistogramAxis) (low high : Q) :
  axis_ok h a = true ->
  wf_view h (_edges a) ->
  (item (edges h a) 0 < low)%Q ->
  (low < high)%Q ->
  (high < item (edges h a) (-1))%Q ->
  (item (edges h a) (bin h a high) < high)%Q ->
  (item (edges h a) (bin h a low) < low)%Q ->
  exists r h',
    cut a (Some low) (Some high) (Snap "clip") h = (Ok r, h') /\
    edges h' a <> edges h a.
Proof.
  intros ok wf H1 H2 H3 H4 H5.
  destruct (@cut_clip_exact h a low high ok wf H1 H2 H3 H4)
    as (a' & mask & h' & Hcut & _ & _ & Hl & _).
  destruct (@clip_bins h a low high ok H1 H2 H3) as (_ & _ & _ & _ & El & _).
  exists (a', mask), h'. split; trivial.
  intros E. rewrite E, El in Hl. rewrite Hl in H5.
  exact (Qlt_irrefl _ H5).
Qed.

(** The slice taken by [cut] is one-dimensional. *)
Lemma getslice_ndim (e v : ndarray) (start stop : option Z) (step : Z) :
  getslice e start stop step = Ok v -> (ndim v =? 1)%nat = true.
Proof.
  unfold getslice. destruct (step =? 0); [discriminate|].
  destruct (slice_indices _ _ _ _). now intros [= <-].
Qed.

(** The steps of [cut] after [lowi] and [highi], when nothing is clipped. *)
Ltac cut_steps Stop :=
  unfold bind at 1; unfold lift at 1;
  let v := fresh "v" in
  let Ev := fresh "Ev" in
  destruct (getslice _ _ _ _) as [v|?] eqn:Ev; [|apply Stop];
  unfold bind at 1; unfold lift at 1;
  destruct (zeros _) as [?|?]; [|apply Stop];
  unfold bind at 1; unfold ret at 1; unfold bind at 1; unfold ret at 1;
  unfold bind;
  rewrite (init_from_array _ v _ (getslice_ndim _ _ _ _ Ev));
  destruct (strictly_increasing _); unfold ret; intros [= <- <-]; eauto.

(** With any other snap than ['clip'], [cut] writes into no existing
    buffer: the heap only grows by the buffer of the new axis. *)
Lemma cut_no_clip_frame (h h' : heap) (a : HistogramAxis) (low high : option Q)
      (s0 s1 : string) (r : result (HistogramAxis * list bool)) :
  String.eqb s0 "clip" = false ->
  String.eqb s1 "clip" = false ->
  cut a low high (Snap2 s0 s1) h = (r, h') ->
  exists l, h' = h ++ l.
Proof.
  intros E0 E1. unfold cut.
  assert (Stop : forall x : exn,
             (Raise x : result (HistogramAxis * list bool), h) = (r, h') ->
             exists l, h' = h ++ l).
  { intros x [= <- <-]. exists []. now rewrite app_nil_r. }
  destruct (negb _); [apply Stop|].
  rewrite E0, E1. unfold bind at 1.
  destruct low as [lo|], high as [hi|].
  - destruct (as_index _) as [lowi|x]; [|apply Stop]. unfold bind at 1.
    destruct (as_index _) as [highi|x]; [|apply Stop]. cut_steps Stop.
  - destruct (as_index _) as [lowi|x]; [|apply Stop]. unfold bind at 1.
    unfold ret at 1. cut_steps Stop.
  - unfold ret at 1. unfold bind at 1.
    destruct (as_index _) as [highi|x]; [|apply Stop]. cut_steps Stop.
  - unfold ret at 1. unfold bind at 1. unfold ret at 1. cut_steps Stop.
Qed.

(** X10.  With any snap other than ['clip'], whatever [cut] returns or
    raises, the receiver keeps its edges through the call. *)
Lemma cut_no_clip_receiver (h h' : heap) (a : HistogramAxis)
      (low high : option Q) (s0 s1 : string)
      (r : result (HistogramAxis * list bool)) :
  (base (_edges a) < List.length h)%nat ->
  String.eqb s0 "clip" = false ->
  String.eqb s1 "clip" = false ->
  cut a low high (Snap2 s0 s1) h = (r, h') ->
  edges h' a = edges h a.
Proof.
  intros Hb E0 E1 Hcut.
  destruct (@cut_no_clip_frame h h' a low high s0 s1 r E0 E1 Hcut)
    as (l & ->).
  unfold edges, values, load. apply map_ext. intros k.
  now rewrite app_nth1.
Qed.

(** ** Instances on the example axis *)

(** Comparisons of closed rationals. *)
Ltac qcompare :=
  vm_compute; first [reflexivity | discriminate | intro; discriminate].

(** An axis made by the constructor owns its buffer: its view is well
    formed. *)
Lemma init_from_array_wf (h h' : heap) (v : ndarray) (lab : option pystr)
      (a : HistogramAxis) :
  (ndim v =? 1)%nat = true ->
  __init__ (Bins (PArray v)) LimNone lab h = (Ok a, h') ->
  wf_view h' (_edges a).
Proof.
  intros Hd. rewrite (init_from_array h v lab Hd).
  destruct (strictly_increasing (values h v)); [|discriminate].
  intros [= <- <-]. unfold wf_view. cbn [_edges base offset stride len shape].
  rewrite nth_middle, length_app, values_length, (ndim1_shape _ Hd).
  cbn [List.length prod hd].
  split; [lia | split; [lia | intros k Hk; cbn in Hk; lia]].
Qed.

(** The example axis is what [HistogramAxis([0, 1, 2, 3])] builds in an
    empty heap. *)
Example axis0_constructed :
  __init__ (Bins (PList [0; 1; 2; 3]%Q)) LimNone None []
  = (Ok Examples.axis0, Examples.heap0).
Proof. reflexivity. Qed.

Lemma wf_view_axis0 : wf_view Examples.heap0 (_edges Examples.axis0).
Proof.
  unfold wf_view. cbn. repeat split; lia.
Qed.

(** The clipped cut of the example axis to [1/2, 5/2]. *)
Example cut_clip_exact_example :
  exists a' mask h',
    cut Examples.axis0 (Some (1 # 2)) (Some (5 # 2)) (Snap "clip")
        Examples.heap0 = (Ok (a', mask), h') /\
    item (edges h' a') 0 = 1 # 2 /\
    item (edges h' a') (-1) = 5 # 2 /\
    item (edges h' Examples.axis0) 0 = 1 # 2 /\
    item (edges h' Examples.axis0) 3 = 5 # 2.
Proof.
  apply (@cut_clip_exact Examples.heap0 Examples.axis0 (1 # 2) (5 # 2)
           eq_refl wf_view_axis0); qcompare.
Qed.

(** [bin] on the example axis: inside a bin, on an edge, below and above. *)
Lemma bin_half_open_witness :
  bin Examples.heap0 Examples.axis0 (3 # 2) = 1 /\
  bin Examples.heap0 Examples.axis0 2 = 2 /\
  bin Examples.heap0 Examples.axis0 (-1) < 0 /\
  bin Examples.heap0 Examples.axis0 7 = 3.
Proof.
  destruct (@bin_half_open Examples.heap0 Examples.axis0 (3 # 2) eq_refl)
    as (H1 & H2 & _ & _).
  destruct (@bin_half_open Examples.heap0 Examples.axis0 (-1) eq_refl)
    as (_ & _ & H3 & _).
  destruct (@bin_half_open Examples.heap0 Examples.axis0 7 eq_refl)
    as (_ & _ & _ & H4).
  split; [|split; [|split]].
  - symmetry. apply H1.
    + split; qcompare.
    + unfold nbins. simpl. lia.
    + split; qcompare.
  - apply (H2 2). unfold nbins. simpl. lia.
  - apply H3. qcompare.
  - apply H4. qcompare.
Defined.

(** [cut(None, None)] on the example axis. *)
Lemma cut_none_identity_witness :
  exists a' h',
    cut Examples.axis0 None None (Snap "nearest") Examples.heap0
    = (Ok (a', [true; true; true]), h') /\
    edges h' a' = [0; 1; 2; 3]%Q.
Proof.
  apply (@cut_none_identity Examples.heap0 Examples.axis0 eq_refl).
  vm_compute. lia.
Defined.

(** [mergebins(3)] on the three bins of the example axis. *)
Lemma mergebins_divisible_witness :
  exists a' h',
    mergebins Examples.axis0 3 "low" true Examples.heap0 = (Ok a', h') /\
    edges h' a' = [0; 3]%Q /\
    nbins a' = 1.
Proof.
  apply (@mergebins_divisible Examples.heap0 Examples.axis0 3 "low" true
           eq_refl);
    [lia | reflexivity | reflexivity].
Defined.


(** * More of the class *)

(** ** Reading edges *)

(** [e[i]] on a one-dimensional array, for a Python index in range. *)
Lemma getitem_item (h : heap) (e : ndarray) (i : Z) :
  shape e = [len e] ->
  - Z.of_nat (len e) <= i < Z.of_nat (len e) ->
  getitem h e i = Ok (item (values h e) i).
Proof.
  intros Hsh Hi. unfold getitem, check_index.
  destruct (Z.ltb_spec i (- Z.of_nat (len e))); [lia|].
  destruct (Z.leb_spec (Z.of_nat (len e)) i); [lia|].
  cbn [orb]. f_equal. unfold item.
  rewrite values_length, Hsh. cbn [prod].
  destruct (Z.ltb_spec i 0).
  - rewrite (@load_values h e (i + Z.of_nat (len e)) Hsh) by lia.
    apply item_nonneg. lia.
  - rewrite (@load_values h e i Hsh) by lia. now apply item_nonneg.
Qed.

Lemma getitem_out_of_range (h : heap) (e : ndarray) (i : Z) :
  i < - Z.of_nat (len e) \/ Z.of_nat (len e) <= i ->
  getitem h e i = Raise IndexError.
Proof.
  intros Hi. unfold getitem, check_index.
  destruct (Z.ltb_spec i (- Z.of_nat (len e)));
    destruct (Z.leb_spec (Z.of_nat (len e)) i); trivial; lia.
Qed.

(** The search never leaves its window, sorted input or not. *)
Lemma binsearch_right_range (fuel : nat) (arr : list Q) (key : Q)
      (imin imax : nat) :
  (imin <= imax)%nat ->
  (imin <= binsearch_right fuel arr key imin imax <= imax)%nat.
Proof.
  revert imin imax. induction fuel as [|fuel IH]; intros imin imax Hb;
    cbn [binsearch_right]; [lia|].
  destruct (imin <? imax)%nat eqn:Elt; [|lia].
  apply Nat.ltb_lt in Elt.
  assert (Hmid : (imin <= imin + (imax - imin) / 2 < imax)%nat).
  { pose proof (Nat.div_lt (imax - imin) 2). lia. }
  destruct (Qltb key _).
  - specialize (IH imin (imin + (imax - imin) / 2)%nat). lia.
  - specialize (IH (imin + (imax - imin) / 2 + 1)%nat imax). lia.
Qed.

Lemma bin_range (h : heap) (a : HistogramAxis) (x : Q) :
  shape (_edges a) = [len (_edges a)] ->
  -1 <= bin h a x <= nbins a.
Proof.
  intros Hsh.
  assert (Hl : List.length (edges h a) = len (_edges a)).
  { unfold edges. now rewrite values_length, Hsh. }
  unfold bin, nbins, searchsorted_right.
  pose proof (binsearch_right_range (List.length (edges h a)) (edges h a) x
                (imin := 0) (imax := List.length (edges h a)) ltac:(lia)) as R.
  lia.
Qed.

(** ** bin is monotone *)

(** X1.  On an axis with strictly increasing edges, a larger value never
    falls in an earlier bin: [x <= y] gives [bin(x) <= bin(y)]. *)
Theorem bin_monotone (h : heap) (a : HistogramAxis) (x y : Q) :
  axis_ok h a = true ->
  (x <= y)%Q ->
  bin h a x <= bin h a y.
Proof.
  intros ok Hxy.
  destruct (@bin_searchsorted h a ok x) as (-> & Hrx & P1x & P2x).
  destruct (@bin_searchsorted h a ok y) as (-> & Hry & P1y & P2y).
  set (rx := searchsorted_right (edges h a) x) in *.
  set (ry := searchsorted_right (edges h a) y) in *.
  destruct (Nat.le_gt_cases rx ry) as [Hle|Hgt]; [lia|].
  exfalso.
  pose proof (P1x ry Hgt) as H1.
  pose proof (P2y ry ltac:(lia)) as H2.
  lra.
Qed.

(** Two values on the example axis. *)
Lemma bin_monotone_witness :
  bin Examples.heap0 Examples.axis0 (1 # 2)
  <= bin Examples.heap0 Examples.axis0 (5 # 2).
Proof.
  apply (@bin_monotone Examples.heap0 Examples.axis0 (1 # 2) (5 # 2) eq_refl).
  qcompare.
Defined.

(** ** inaxis and overflow *)

Lemma Qle_bool_false (x y : Q) : Qle_bool x y = false -> (y < x)%Q.
Proof.
  intros E. apply Qnot_le_lt. intros L. apply Qle_bool_iff in L. congruence.
Qed.

(** On an axis with at least one edge [inaxis] reads both extreme edges (or
    only the first) and raises nothing. *)
Lemma inaxis_value (h : heap) (a : HistogramAxis) (x : Q) :
  shape (_edges a) = [len (_edges a)] ->
  (1 <= len (_edges a))%nat ->
  inaxis h a x
  = Ok (Qle_bool (item (edges h a) 0) x && Qltb x (item (edges h a) (-1))).
Proof.
  intros Hsh Hn. unfold inaxis.
  rewrite !(getitem_item h _ Hsh) by lia. fold (edges h a).
  destruct (Qle_bool _ _); reflexivity.
Qed.

(** X2.  [inaxis(x)] is [True] exactly when [bin(x)] is the index of a bin,
    [0 <= bin(x) < nbins]; on an axis without edges it raises
    [IndexError]. *)
Theorem inaxis_iff_bin (h : heap) (a : HistogramAxis) (x : Q) :
  axis_ok h a = true ->
  (len (_edges a) = 0%nat -> inaxis h a x = Raise IndexError) /\
  ((1 <= len (_edges a))%nat ->
   exists b, inaxis h a x = Ok b /\
             (b = true <-> 0 <= bin h a x < nbins a)).
Proof.
  intros ok. destruct (axis_ok_inv h a ok) as (Hsh & Hl & Hs). split.
  - intros H0. unfold inaxis. rewrite getitem_out_of_range; trivial. lia.
  - intros Hn. eexists. split; [apply (inaxis_value h a x Hsh Hn)|].
    rewrite andb_true_iff, Qltb_true. split.
    + intros [H1 H2]. apply Qle_bool_iff in H1.
      apply (@bin_inside h a ok x). split; trivial.
    + intros Hb. split.
      * destruct (Qle_bool (item (edges h a) 0) x) eqn:E; trivial.
        apply Qle_bool_false in E.
        pose proof (@bin_below h a ok x E). lia.
      * destruct (Qlt_le_dec x (item (edges h a) (-1))) as [L|L]; trivial.
        pose proof (@bin_above h a ok x L). lia.
Qed.

(** A value inside the example axis. *)
Lemma inaxis_iff_bin_witness :
  exists b, inaxis Examples.heap0 Examples.axis0 (1 # 2) = Ok b /\
            (b = true <->
             0 <= bin Examples.heap0 Examples.axis0 (1 # 2)
             < nbins Examples.axis0).
Proof.
  apply (@inaxis_iff_bin Examples.heap0 Examples.axis0 (1 # 2) eq_refl).
  vm_compute. lia.
Defined.

(** X3.  [overflow] is outside the axis: [inaxis(overflow)] is [False] and
    [bin(overflow)] is [nbins], one past the last bin. *)
Theorem overflow_outside (h : heap) (a : HistogramAxis) :
  axis_ok h a = true ->
  (1 <= len (_edges a))%nat ->
  exists v, overflow h a = Ok v /\
            inaxis h a v = Ok false /\
            bin h a v = nbins a.
Proof.
  intros ok Hn. destruct (axis_ok_inv h a ok) as (Hsh & Hl & Hs).
  exists (item (edges h a) (-1) + 1)%Q. split; [|split].
  - unfold overflow, max. rewrite (getitem_item h _ Hsh) by lia. reflexivity.
  - rewrite (inaxis_value h a _ Hsh Hn).
    assert (E : Qltb (item (edges h a) (-1) + 1) (item (edges h a) (-1))
                = false) by (apply Qltb_false; lra).
    rewrite E. now rewrite andb_false_r.
  - apply (@bin_above h a ok). lra.
Qed.

Lemma overflow_outside_witness :
  exists v, overflow Examples.heap0 Examples.axis0 = Ok v /\
            inaxis Examples.heap0 Examples.axis0 v = Ok false /\
            bin Examples.heap0 Examples.axis0 v = 3.
Proof.
  apply (@overflow_outside Examples.heap0 Examples.axis0 eq_refl).
  vm_compute. lia.
Defined.

(** ** edge_index: valid indices, bracketing, clamping *)

Lemma lowbin_highbin_range (h : heap) (a : HistogramAxis) (x : Q) :
  shape (_edges a) = [len (_edges a)] ->
  (1 <= len (_edges a))%nat ->
  0 <= lowbin h a x <= highbin h a x /\
  highbin h a x <= nbins a /\
  highbin h a x <= lowbin h a x + 1.
Proof.
  intros Hsh Hn. pose proof (bin_range h a x Hsh) as R.
  unfold lowbin, highbin, nbins in *. lia.
Qed.

Lemma edge_index_nearest_value (h : heap) (a : HistogramAxis) (x : Q) :
  shape (_edges a) = [len (_edges a)] ->
  (1 <= len (_edges a))%nat ->
  edge_index h a x "nearest"
  = Ok (Index (if Qltb (Qabs (x - item (edges h a) (lowbin h a x)))
                       (Qabs (item (edges h a) (highbin h a x) - x))
               then lowbin h a x else highbin h a x)).
Proof.
  intros Hsh Hn.
  destruct (lowbin_highbin_range h a x Hsh Hn) as (R1 & R2 & _).
  unfold nbins in R2.
  apply edge_index_nearest; apply getitem_item; trivial; lia.
Qed.

(** X4.  With a known snap keyword [edge_index] returns valid edge
    indices, between [0] and [len(edges) - 1] (for ['both'] an ordered pair
    of them); with any other keyword it fails its assertion. *)
Theorem edge_index_valid (h : heap) (a : HistogramAxis) (x : Q)
        (snap : string) :
  (ndim (_edges a) =? 1)%nat = true ->
  (1 <= len (_edges a))%nat ->
  (snap_in snap ["nearest"; "low"; "high"; "both"]%string = false ->
   edge_index h a x snap = Raise AssertionError) /\
  (snap_in snap ["nearest"; "low"; "high"; "both"]%string = true ->
   match edge_index h a x snap with
   | Ok (Index i) => 0 <= i <= nbins a
   | Ok (Both lo hi) => 0 <= lo <= hi /\ hi <= nbins a
   | Raise _ => False
   end).
Proof.
  intros Hd Hn. pose proof (ndim1_shape _ Hd) as Hsh.
  destruct (lowbin_highbin_range h a x Hsh Hn) as (R1 & R2 & _).
  split; intros Hs.
  - unfold edge_index. now rewrite Hs.
  - destruct (String.eqb snap "nearest") eqn:E.
    + apply String.eqb_eq in E. subst snap.
      rewrite (edge_index_nearest_value h a x Hsh Hn).
      destruct (Qltb _ _); lia.
    + unfold edge_index. rewrite Hs, E. cbn [negb].
      destruct (String.eqb snap "both"); [lia|].
      destruct (String.eqb snap "low"); lia.
Qed.

Lemma edge_index_valid_witness :
  match edge_index Examples.heap0 Examples.axis0 7 "both" with
  | Ok (Index i) => 0 <= i <= nbins Examples.axis0
  | Ok (Both lo hi) => 0 <= lo <= hi /\ hi <= nbins Examples.axis0
  | Raise _ => False
  end.
Proof.
  apply (@edge_index_valid Examples.heap0 Examples.axis0 7 "both" eq_refl);
    [vm_compute; lia | reflexivity].
Defined.

(** X5.  For [x] inside the axis, ['low'] returns the index of the edge at
    or below [x], ['high'] the index of the next edge, which is above [x],
    and ['both'] the pair of them. *)
Theorem edge_index_brackets (h : heap) (a : HistogramAxis) (x : Q) :
  axis_ok h a = true ->
  (item (edges h a) 0 <= x < item (edges h a) (-1))%Q ->
  exists lo,
    edge_index h a x "low" = Ok (Index lo) /\
    edge_index h a x "high" = Ok (Index (lo + 1)) /\
    edge_index h a x "both" = Ok (Both lo (lo + 1)) /\
    0 <= lo < nbins a /\
    (item (edges h a) lo <= x < item (edges h a) (lo + 1))%Q.
Proof.
  intros ok Hx. destruct (@bin_inside h a ok x Hx) as (Hb & Hbr).
  exists (bin h a x).
  assert (El : lowbin h a x = bin h a x) by (unfold lowbin; lia).
  assert (Eh : highbin h a x = bin h a x + 1)
    by (unfold highbin, nbins in *; lia).
  repeat split; try tauto; try lia.
  - rewrite edge_index_low. now rewrite El.
  - rewrite edge_index_high. now rewrite Eh.
  - change (edge_index h a x "both")
      with (Ok (Both (lowbin h a x) (highbin h a x)) : result edge_ix).
    now rewrite El, Eh.
Qed.

Lemma edge_index_brackets_witness :
  exists lo,
    edge_index Examples.heap0 Examples.axis0 (3 # 2) "low" = Ok (Index lo) /\
    edge_index Examples.heap0 Examples.axis0 (3 # 2) "high"
    = Ok (Index (lo + 1)) /\
    edge_index Examples.heap0 Examples.axis0 (3 # 2) "both"
    = Ok (Both lo (lo + 1)) /\
    0 <= lo < nbins Examples.axis0 /\
    (item (edges Examples.heap0 Examples.axis0) lo <= 3 # 2
     < item (edges Examples.heap0 Examples.axis0) (lo + 1))%Q.
Proof.
  apply (@edge_index_brackets Examples.heap0 Examples.axis0 (3 # 2) eq_refl).
  split; qcompare.
Defined.

(** X6.  Outside the axis every snap is clamped to the nearest end: for [x]
    below the first edge ['nearest'], ['low'] and ['high'] all return [0],
    and for [x] at or above the last edge they all return the last edge
    index. *)
Theorem edge_index_clamped (h : heap) (a : HistogramAxis) (x : Q)
        (snap : string) :
  axis_ok h a = true ->
  (1 <= len (_edges a))%nat ->
  snap_in snap ["nearest"; "low"; "high"]%string = true ->
  ((x < item (edges h a) 0)%Q -> edge_index h a x snap = Ok (Index 0)) /\
  ((item (edges h a) (-1) <= x)%Q ->
   edge_index h a x snap = Ok (Index (nbins a))).
Proof.
  intros ok Hn Hs. destruct (axis_ok_inv h a ok) as (Hsh & Hl & Hinc).
  assert (Hall : forall i, lowbin h a x = i -> highbin h a x = i ->
                           edge_index h a x snap = Ok (Index i)).
  { intros i El Eh. cbn [snap_in existsb] in Hs.
    rewrite !orb_true_iff in Hs.
    destruct Hs as [E|[E|[E|E]]]; try discriminate;
      apply String.eqb_eq in E; subst snap.
    - rewrite (edge_index_nearest_value h a x Hsh Hn), El, Eh.
      now destruct (Qltb _ _).
    - now rewrite edge_index_low, El.
    - now rewrite edge_index_high, Eh. }
  split; intros Hx; apply Hall.
  - pose proof (@bin_below h a ok x Hx). pose proof (bin_range h a x Hsh).
    unfold lowbin. lia.
  - pose proof (@bin_below h a ok x Hx). pose proof (bin_range h a x Hsh).
    unfold highbin. lia.
  - pose proof (@bin_above h a ok x Hx). unfold lowbin, nbins in *. lia.
  - pose proof (@bin_above h a ok x Hx). unfold highbin, nbins in *. lia.
Qed.

Lemma edge_index_clamped_witness :
  edge_index Examples.heap0 Examples.axis0 (-7) "high" = Ok (Index 0) /\
  edge_index Examples.heap0 Examples.axis0 7 "low" = Ok (Index 3).
Proof.
  split.
  - apply (@edge_index_clamped Examples.heap0 Examples.axis0 (-7) "high"
             eq_refl); [vm_compute; lia | reflexivity | qcompare].
  - apply (@edge_index_clamped Examples.heap0 Examples.axis0 7 "low"
             eq_refl); [vm_compute; lia | reflexivity | qcompare].
Defined.

(** ** edge_index with snap='nearest' *)

Lemma Qabs_diff_le (x u : Q) : (u <= x)%Q -> (Qabs (x - u) == x - u)%Q.
Proof. intros H. apply Qabs_pos. lra. Qed.

(** At the value of an edge ['nearest'] returns the index of that very
    edge. *)
Lemma nearest_at_edge (h : heap) (a : HistogramAxis) (i : Z) :
  axis_ok h a = true ->
  0 <= i <= nbins a ->
  edge_index h a (item (edges h a) i) "nearest" = Ok (Index i).
Proof.
  intros ok Hi. destruct (axis_ok_inv h a ok) as (Hsh & Hl & Hinc).
  assert (Hn : (1 <= len (_edges a))%nat) by (unfold nbins in Hi; lia).
  rewrite (edge_index_nearest_value h a _ Hsh Hn).
  set (x := item (edges h a) i).
  destruct (Z.eq_dec i (nbins a)) as [E|N].
  - assert (Hx : (item (edges h a) (-1) <= x)%Q).
    { unfold x. rewrite item_last, item_nonneg by lia.
      replace (Z.to_nat i) with (List.length (edges h a) - 1)%nat
        by (unfold nbins in E; lia).
      apply Qle_refl. }
    pose proof (@bin_above h a ok x Hx) as B.
    assert (lowbin h a x = i) by (unfold lowbin, nbins in *; lia).
    assert (highbin h a x = i) by (unfold highbin, nbins in *; lia).
    destruct (Qltb _ _); congruence.
  - pose proof (@bin_edge h a ok i ltac:(lia)) as B. fold x in B.
    assert (El : lowbin h a x = i) by (unfold lowbin; lia).
    assert (Eh : highbin h a x = i + 1)
      by (unfold highbin, nbins in *; lia).
    rewrite El, Eh.
    assert (Hlt : (x < item (edges h a) (i + 1))%Q).
    { unfold x. unfold nbins in Hi, N. rewrite !item_nonneg by lia.
      apply strictly_increasing_lt; trivial. lia. }
    assert (C : Qltb (Qabs (x - x)) (Qabs (item (edges h a) (i + 1) - x))
                = true).
    { apply Qltb_true. rewrite (Qabs_pos (item (edges h a) (i + 1) - x))
        by lra.
      rewrite Qabs_diff_le by lra. lra. }
    fold x. now rewrite C.
Qed.

(** ** cut without clipping: a segment of the edges *)

Lemma slice_indices_within (n lo hi : Z) :
  0 <= lo <= n -> 0 <= hi <= n ->
  slice_indices n (Some lo) (Some hi) 1 = (lo, Z.to_nat (hi - lo)).
Proof.
  intros Hlo Hhi. unfold slice_indices, clamp_index.
  change (1 <? 0) with false. cbv iota.
  destruct (Z.ltb_spec lo 0); [lia|].
  destruct (Z.ltb_spec hi 0); [lia|].
  assert (E1 : (if n <=? lo then n else lo) = lo)
    by (destruct (Z.leb_spec n lo); lia).
  assert (E2 : (if n <=? hi then n else hi) = hi)
    by (destruct (Z.leb_spec n hi); lia).
  rewrite E1, E2. destruct (Z.ltb_spec lo hi).
  - rewrite Z.div_1_r. f_equal. lia.
  - f_equal. lia.
Qed.

Lemma firstn_repeat {A} (x : A) (k n : nat) :
  (k <= n)%nat -> firstn k (repeat x n) = repeat x k.
Proof.
  revert n. induction k as [|k IH]; intros [|n] Hk; simpl; trivial; try lia.
  f_equal. apply IH. lia.
Qed.

Lemma skipn_repeat {A} (x : A) (k n : nat) :
  skipn k (repeat x n) = repeat x (n - k).
Proof.
  revert n. induction k as [|k IH]; intros [|n]; simpl; trivial.
Qed.

(** The mask [cut] builds: [False] up to [lowi], [True] from [lowi] up to
    [highi], [False] after. *)
Lemma setslice_true_repeat (n : nat) (lo hi : Z) :
  0 <= lo <= Z.of_nat n -> 0 <= hi <= Z.of_nat n ->
  setslice_true (repeat false n) lo hi
  = repeat false (Z.to_nat lo) ++ repeat true (Z.to_nat (hi - lo))
           ++ repeat false (n - (Z.to_nat lo + Z.to_nat (hi - lo))).
Proof.
  intros Hlo Hhi. unfold setslice_true.
  rewrite repeat_length, slice_indices_within by trivial.
  rewrite firstn_repeat by lia. now rewrite skipn_repeat.
Qed.

Lemma count_true_app (l1 l2 : list bool) :
  count_true (l1 ++ l2) = (count_true l1 + count_true l2)%nat.
Proof. unfold count_true. now rewrite filter_app, length_app. Qed.

Lemma count_true_repeat (b : bool) (n : nat) :
  count_true (repeat b n) = if b then n else 0%nat.
Proof.
  unfold count_true. induction n as [|n IH]; [now destruct b|].
  destruct b; simpl in *; now rewrite IH.
Qed.

Lemma nth_repeat_default {A} (x : A) (n k : nat) : nth k (repeat x n) x = x.
Proof.
  revert k. induction n as [|n IH]; intros [|k]; simpl; trivial.
Qed.

(** Entry [k] of that mask. *)
Lemma nth_mask (n k : nat) (lo hi : Z) :
  0 <= lo <= Z.of_nat n -> 0 <= hi <= Z.of_nat n -> (k < n)%nat ->
  nth k (setslice_true (repeat false n) lo hi) false
  = (lo <=? Z.of_nat k) && (Z.of_nat k <? hi).
Proof.
  intros Hlo Hhi Hk. rewrite setslice_true_repeat by trivial.
  destruct (Z.leb_spec lo (Z.of_nat k)) as [L|L]; cbn [andb].
  - rewrite app_nth2 by (rewrite repeat_length; lia). rewrite repeat_length.
    destruct (Z.ltb_spec (Z.of_nat k) hi) as [G|G].
    + rewrite app_nth1 by (rewrite repeat_length; lia).
      rewrite (nth_indep _ false true) by (rewrite repeat_length; lia).
      apply nth_repeat_default.
    + rewrite app_nth2 by (rewrite repeat_length; lia).
      apply nth_repeat_default.
  - rewrite app_nth1 by (rewrite repeat_length; lia).
    apply nth_repeat_default.
Qed.

Lemma segment_nth (l : list Q) (i j : Z) :
  0 <= i -> j <= Z.of_nat (List.length l) ->
  segment l i j
  = map (fun k => nth (Z.to_nat (i + Z.of_nat k)) l 0%Q)
        (seq 0 (Z.to_nat (j - i))).
Proof.
  intros Hi Hj. unfold segment.
  apply nth_ext with (d := 0%Q) (d' := 0%Q).
  - rewrite length_firstn, length_skipn, length_map, length_seq. lia.
  - intros k Hk. rewrite length_firstn, length_skipn in Hk.
    rewrite nth_firstn.
    destruct (Nat.ltb_spec k (Z.to_nat (j - i))); [|lia].
    rewrite nth_skipn, nth_map_seq by lia. f_equal. lia.
Qed.

(** The values of [e[lowi:highi+1]] are that segment of the values of
    [e]. *)
Lemma values_segment (h : heap) (e v : ndarray) (lowi highi : Z) :
  shape e = [len e] ->
  0 <= lowi <= Z.of_nat (len e) -> 0 <= highi + 1 <= Z.of_nat (len e) ->
  getslice e (Some lowi) (Some (highi + 1)) 1 = Ok v ->
  values h v = segment (values h e) lowi (highi + 1) /\
  shape v = [Z.to_nat (highi + 1 - lowi)].
Proof.
  intros Hsh Hlo Hhi Ev.
  pose proof (values_getslice h _ _ _ _ Ev) as Hv.
  rewrite slice_indices_within in Hv by lia. split.
  - rewrite Hv, segment_nth by (rewrite ?values_length, ?Hsh; cbn; lia).
    apply map_ext_in. intros k Hk. apply in_seq in Hk.
    destruct (Z.le_gt_cases (highi + 1) lowi); [lia|].
    rewrite (@load_values h e (lowi + Z.of_nat k * 1) Hsh) by lia.
    rewrite item_nonneg by lia. f_equal. lia.
  - unfold getslice in Ev. change (1 =? 0) with false in Ev. cbv iota in Ev.
    rewrite slice_indices_within in Ev by lia. now injection Ev as <-.
Qed.

Lemma strictly_increasing_segment (l : list Q) (i j : Z) :
  strictly_increasing l = true ->
  0 <= i -> j <= Z.of_nat (List.length l) ->
  strictly_increasing (segment l i j) = true.
Proof.
  intros Hs Hi Hj. rewrite segment_nth by trivial.
  apply strictly_increasing_map_seq. intros k Hk.
  apply strictly_increasing_lt; trivial. lia.
Qed.

(** [cut] with snaps other than ['clip'] and indices [lowi], [highi]:
    the new axis holds the edges [lowi .. highi] in a new buffer, the mask
    is set on [lowi .. highi - 1]. *)
Lemma cut_segment (h : heap) (a : HistogramAxis) (low high : option Q)
      (s0 s1 : string) (lowi highi : Z) :
  axis_ok h a = true ->
  cut_snap_ok s0 = true -> cut_snap_ok s1 = true ->
  String.eqb s0 "clip" = false -> String.eqb s1 "clip" = false ->
  cut_lowi h a low s0 = Ok lowi ->
  cut_highi h a high s1 = Ok highi ->
  0 <= lowi <= nbins a + 1 -> -1 <= highi <= nbins a -> 0 <= nbins a ->
  cut a low high (Snap2 s0 s1) h
  = (Ok (mk_axis (mk_ndarray (List.length h) 0 1
                             [Z.to_nat (highi + 1 - lowi)])
                 (set_label (_label a)),
         setslice_true (repeat false (Z.to_nat (nbins a))) lowi highi),
     h ++ [segment (edges h a) lowi (highi + 1)]).
Proof.
  intros ok V0 V1 C0 C1 El Eh Rl Rh Hn.
  destruct (axis_ok_inv h a ok) as (Hsh & Hl & Hs). unfold nbins in *.
  destruct (getslice (_edges a) (Some lowi) (Some (highi + 1)) 1)
    as [v|x] eqn:Ev.
  2:{ unfold getslice in Ev. change (1 =? 0) with false in Ev.
      cbv iota in Ev. destruct (slice_indices _ _ _ _); discriminate. }
  assert (B1 : 0 <= lowi <= Z.of_nat (len (_edges a))) by lia.
  assert (B2 : 0 <= highi + 1 <= Z.of_nat (len (_edges a))) by lia.
  destruct (@values_segment h (_edges a) v lowi highi Hsh B1 B2 Ev)
    as (Hv & Hshv).
  assert (Hz : zeros (Z.of_nat (len (_edges a)) - 1)
               = Ok (repeat false (Z.to_nat (Z.of_nat (len (_edges a)) - 1)))).
  { unfold zeros. destruct (Z.ltb_spec (Z.of_nat (len (_edges a)) - 1) 0);
      [lia | reflexivity]. }
  assert (Hinc : strictly_increasing (values h v) = true).
  { rewrite Hv. apply strictly_increasing_segment; trivial; try lia.
    fold (edges h a). lia. }
  unfold cut. unfold cut_snap_ok in V0, V1. cbn [forallb].
  rewrite V0, V1. cbn [andb negb]. rewrite C0, C1.
  unfold cut_lowi in El. unfold cut_highi in Eh.
  destruct low as [lo|], high as [hi|];
    unfold bind at 1;
    [rewrite El | rewrite El | unfold ret at 1 | unfold ret at 1];
    unfold bind at 1;
    [rewrite Eh | unfold ret at 1 | rewrite Eh | unfold ret at 1];
    try (injection El as <-); try (injection Eh as <-);
    unfold bind at 1; unfold lift at 1; rewrite Ev;
    unfold bind at 1; unfold lift at 1; unfold nbins; rewrite Hz;
    unfold bind at 1; unfold ret at 1; unfold bind at 1; unfold ret at 1;
    unfold bind;
    rewrite (init_from_array h v (_label a) (getslice_ndim _ _ _ _ Ev)), Hinc;
    unfold ret; rewrite Hshv, Hv; reflexivity.
Qed.

Lemma item_segment_first (l : list Q) (i j : Z) :
  0 <= i < j -> j <= Z.of_nat (List.length l) ->
  item (segment l i j) 0 = item l i.
Proof.
  intros Hi Hj. rewrite segment_nth, !item_nonneg by lia.
  rewrite nth_map_seq by lia. f_equal. lia.
Qed.

Lemma item_segment_last (l : list Q) (i j : Z) :
  0 <= i < j -> j <= Z.of_nat (List.length l) ->
  item (segment l i j) (-1) = item l (j - 1).
Proof.
  intros Hi Hj. rewrite segment_nth, item_last, item_nonneg by lia.
  rewrite length_map, length_seq, nth_map_seq by lia. f_equal. lia.
Qed.

(** X8.  [cut(edges[i], edges[j])] with the default snap ['nearest'] and
    [i <= j] returns the axis of the edges [i .. j], and a mask that is
    [True] exactly on the bins [i .. j - 1]. *)
Theorem cut_on_edges (h : heap) (a : HistogramAxis) (i j : Z) :
  axis_ok h a = true ->
  0 <= i <= j -> j <= nbins a ->
  exists a' mask h',
    cut a (Some (item (edges h a) i)) (Some (item (edges h a) j))
        (Snap "nearest") h = (Ok (a', mask), h') /\
    edges h' a' = segment (edges h a) i (j + 1) /\
    List.length mask = Z.to_nat (nbins a) /\
    forall k, (k < Z.to_nat (nbins a))%nat ->
              nth k mask false = (i <=? Z.of_nat k) && (Z.of_nat k <? j).
Proof.
  intros ok Hij Hj.
  assert (El : cut_lowi h a (Some (item (edges h a) i)) "nearest" = Ok i).
  { cbn [cut_lowi]. change (clip_or_expand "nearest") with false. cbv iota.
    now rewrite nearest_at_edge by (trivial; lia). }
  assert (Eh : cut_highi h a (Some (item (edges h a) j)) "nearest" = Ok j).
  { cbn [cut_highi]. change (clip_or_expand "nearest") with false. cbv iota.
    now rewrite nearest_at_edge by (trivial; lia). }
  change (cut a (Some (item (edges h a) i)) (Some (item (edges h a) j))
              (Snap "nearest"))
    with (cut a (Some (item (edges h a) i)) (Some (item (edges h a) j))
              (Snap2 "nearest" "nearest")).
  rewrite (@cut_segment h a _ _ "nearest" "nearest" i j ok
             eq_refl eq_refl eq_refl eq_refl El Eh) by lia.
  do 3 eexists. split; [reflexivity|]. split; [|split].
  - unfold edges at 1. cbn [_edges]. apply values_alloc. cbn [prod].
    unfold segment. destruct (axis_ok_inv h a ok) as (_ & Hl & _).
    unfold nbins in Hj. rewrite length_firstn, length_skipn. lia.
  - rewrite setslice_true_repeat by lia. rewrite !length_app, !repeat_length.
    lia.
  - intros k Hk. apply nth_mask; lia.
Qed.

Lemma cut_on_edges_witness :
  exists a' mask h',
    cut Examples.axis0 (Some 1%Q) (Some 3%Q) (Snap "nearest") Examples.heap0
    = (Ok (a', mask), h') /\
    edges h' a' = [1; 2; 3]%Q /\
    List.length mask = 3%nat /\
    forall k, (k < 3)%nat ->
              nth k mask false = (1 <=? Z.of_nat k) && (Z.of_nat k <? 3).
Proof.
  apply (@cut_on_edges Examples.heap0 Examples.axis0 1 3 eq_refl);
    vm_compute; try split; discriminate.
Defined.

(** X9.  [cut(low, high, snap='expand')] with [low <= high] inside the axis
    never shrinks past the requested bounds: the new axis is the segment
    of original edges from the bin of [low] to the bin of [high], its first
    edge is at or below [low], its last edge above [high], and the mask is
    [True] exactly on those bins. *)
Theorem cut_expand_covers (h : heap) (a : HistogramAxis) (low high : Q) :
  axis_ok h a = true ->
  (item (edges h a) 0 <= low)%Q ->
  (low <= high)%Q ->
  (high < item (edges h a) (-1))%Q ->
  exists a' mask h',
    cut a (Some low) (Some high) (Snap "expand") h = (Ok (a', mask), h') /\
    edges h' a' = segment (edges h a) (bin h a low) (bin h a high + 2) /\
    (item (edges h' a') 0 <= low)%Q /\
    (high < item (edges h' a') (-1))%Q /\
    forall k, (k < Z.to_nat (nbins a))%nat ->
              nth k mask false
              = (bin h a low <=? Z.of_nat k) && (Z.of_nat k <=? bin h a high).
Proof.
  intros ok Hlo Hlh Hhi. destruct (axis_ok_inv h a ok) as (Hsh & Hl & Hs).
  destruct (@bin_inside h a ok low ltac:(split; lra)) as (Bl & Ll & Ul).
  destruct (@bin_inside h a ok high ltac:(split; lra)) as (Bh & Lh & Uh).
  assert (Hle : bin h a low <= bin h a high).
  { destruct (Z.le_gt_cases (bin h a low) (bin h a high)); trivial.
    exfalso. unfold nbins in *. rewrite !item_nonneg in Ll, Uh by lia.
    assert (nth (Z.to_nat (bin h a high + 1)) (edges h a) 0
            <= nth (Z.to_nat (bin h a low)) (edges h a) 0)%Q
      by (apply strictly_increasing_le; trivial; lia).
    lra. }
  set (bl := bin h a low) in *. set (bh := bin h a high) in *.
  assert (El : cut_lowi h a (Some low) "expand" = Ok bl).
  { cbn [cut_lowi]. change (clip_or_expand "expand") with true. cbv iota.
    rewrite edge_index_low. cbn [as_index]. f_equal. unfold lowbin.
    fold bl. lia. }
  assert (Eh : cut_highi h a (Some high) "expand" = Ok (bh + 1)).
  { cbn [cut_highi]. change (clip_or_expand "expand") with true. cbv iota.
    rewrite edge_index_high. cbn [as_index]. f_equal. unfold highbin.
    fold bh. unfold nbins in Bh. lia. }
  change (cut a (Some low) (Some high) (Snap "expand"))
    with (cut a (Some low) (Some high) (Snap2 "expand" "expand")).
  rewrite (@cut_segment h a _ _ "expand" "expand" bl (bh + 1) ok
             eq_refl eq_refl eq_refl eq_refl El Eh) by lia.
  replace (bh + 1 + 1) with (bh + 2) by lia.
  assert (Hnew : forall lab,
             edges (h ++ [segment (edges h a) bl (bh + 2)])
                   (mk_axis (mk_ndarray (List.length h) 0 1
                                        [Z.to_nat (bh + 2 - bl)]) lab)
             = segment (edges h a) bl (bh + 2)).
  { intros lab. unfold edges at 1. cbn [_edges]. apply values_alloc.
    cbn [prod]. unfold segment. unfold nbins in Bh.
    rewrite length_firstn, length_skipn. lia. }
  do 3 eexists. split; [reflexivity|]. rewrite Hnew.
  unfold nbins in Bh. split; [reflexivity|]. split; [|split].
  - rewrite item_segment_first by lia. exact Ll.
  - rewrite item_segment_last by lia.
    now replace (bh + 2 - 1) with (bh + 1) by lia.
  - intros k Hk. unfold nbins in *. rewrite nth_mask by lia.
    f_equal. destruct (Z.ltb_spec (Z.of_nat k) (bh + 1));
      destruct (Z.leb_spec (Z.of_nat k) bh); trivial; lia.
Qed.

Lemma cut_expand_covers_witness :
  exists a' mask h',
    cut Examples.axis0 (Some (1 # 2)) (Some (3 # 2)) (Snap "expand")
        Examples.heap0 = (Ok (a', mask), h') /\
    edges h' a' = [0; 1; 2]%Q /\
    (item (edges h' a') 0 <= 1 # 2)%Q /\
    (3 # 2 < item (edges h' a') (-1))%Q /\
    forall k, (k < 3)%nat ->
              nth k mask false = (0 <=? Z.of_nat k) && (Z.of_nat k <=? 1).
Proof.
  apply (@cut_expand_covers Examples.heap0 Examples.axis0 (1 # 2) (3 # 2)
           eq_refl); qcompare.
Defined.

(** The receiver of a cut to the nearest edges. *)
Lemma cut_no_clip_receiver_witness :
  edges (snd (cut Examples.axis0 (Some (1 # 2)) (Some (5 # 2))
                  (Snap2 "nearest" "expand") Examples.heap0))
        Examples.axis0
  = [0; 1; 2; 3]%Q.
Proof.
  apply (@cut_no_clip_receiver Examples.heap0 _ Examples.axis0
           (Some (1 # 2)) (Some (5 # 2)) "nearest" "expand"
           (fst (cut Examples.axis0 (Some (1 # 2)) (Some (5 # 2))
                     (Snap2 "nearest" "expand") Examples.heap0)));
    [vm_compute; lia | reflexivity | reflexivity | reflexivity].
Defined.

(** ** cut: the mask and the new axis agree *)

Lemma edge_index_index_range (h : heap) (a : HistogramAxis) (x : Q)
      (s : string) :
  shape (_edges a) = [len (_edges a)] ->
  (1 <= len (_edges a))%nat ->
  snap_in s ["nearest"; "low"; "high"]%string = true ->
  exists i, edge_index h a x s = Ok (Index i) /\ 0 <= i <= nbins a.
Proof.
  intros Hsh Hn Hs.
  destruct (lowbin_highbin_range h a x Hsh Hn) as (R1 & R2 & _).
  cbn [snap_in existsb] in Hs. rewrite !orb_true_iff in Hs.
  destruct Hs as [E|[E|[E|E]]]; try discriminate;
    apply String.eqb_eq in E; subst s.
  - rewrite (edge_index_nearest_value h a x Hsh Hn).
    destruct (Qltb _ _); eexists; (split; [reflexivity | lia]).
  - rewrite edge_index_low. eexists. split; [reflexivity | lia].
  - rewrite edge_index_high. eexists. split; [reflexivity | lia].
Qed.

(** The keyword [cut] hands to [edge_index] is one [edge_index] knows. *)
Lemma cut_eisnap_ok (s side : string) :
  cut_snap_ok s = true ->
  snap_in side ["nearest"; "low"; "high"]%string = true ->
  snap_in (if clip_or_expand s then side else s)
          ["nearest"; "low"; "high"]%string = true.
Proof.
  intros Hs Hside. unfold cut_snap_ok in Hs.
  cbn [snap_in existsb] in Hs. rewrite !orb_true_iff in Hs.
  destruct Hs as [E|[E|[E|[E|[E|E]]]]]; try discriminate;
    apply String.eqb_eq in E; subst s; trivial.
Qed.

Lemma cut_lowi_range (h : heap) (a : HistogramAxis) (low : option Q)
      (s0 : string) (lowi : Z) :
  shape (_edges a) = [len (_edges a)] ->
  (1 <= len (_edges a))%nat ->
  cut_snap_ok s0 = true ->
  cut_lowi h a low s0 = Ok lowi -> 0 <= lowi <= nbins a.
Proof.
  intros Hsh Hn Hs. unfold cut_lowi. destruct low as [lo|].
  - destruct (@edge_index_index_range h a lo _ Hsh Hn
                (@cut_eisnap_ok s0 "low" Hs eq_refl)) as (i & -> & Hi).
    now intros [= <-].
  - intros [= <-]. unfold nbins. lia.
Qed.

Lemma cut_highi_range (h : heap) (a : HistogramAxis) (high : option Q)
      (s1 : string) (highi : Z) :
  shape (_edges a) = [len (_edges a)] ->
  (1 <= len (_edges a))%nat ->
  cut_snap_ok s1 = true ->
  cut_highi h a high s1 = Ok highi -> 0 <= highi <= nbins a.
Proof.
  intros Hsh Hn Hs. unfold cut_highi. destruct high as [hi|].
  - destruct (@edge_index_index_range h a hi _ Hsh Hn
                (@cut_eisnap_ok s1 "high" Hs eq_refl)) as (i & -> & Hi).
    now intros [= <-].
  - intros [= <-]. unfold nbins. lia.
Qed.

(** Steps of [cut], for a bound that is given or is [None]. *)
Ltac cut_index_some E :=
  unfold bind at 1;
  match goal with
  | |- context [as_index ?t] =>
    destruct (as_index t) as [?|?] eqn:E; [|discriminate]
  end;
  cbv beta iota.
Ltac cut_index_none := unfold bind at 1; unfold ret at 1.
Ltac cut_write_some :=
  unfold bind at 1;
  destruct (String.eqb _ "clip");
  [destruct (setitem _ _ _ _) as [[[]|?] ?]; [|discriminate]; cbv beta iota
  |unfold ret at 1].
Ltac cut_write_none := unfold bind at 1; unfold ret at 1.
Ltac cut_slice_zeros Ev Ez :=
  unfold bind at 1; unfold lift at 1;
  destruct (getslice _ _ _ _) as [?|?] eqn:Ev; [|discriminate];
  cbv beta iota; unfold bind at 1; unfold lift at 1;
  destruct (zeros _) as [?|?] eqn:Ez; [|discriminate]; cbv beta iota.
Ltac cut_finish :=
  unfold bind;
  match goal with
  | Ev : getslice _ _ _ _ = Ok ?v |- _ =>
    rewrite (init_from_array _ v _ (getslice_ndim _ _ _ _ Ev))
  end;
  destruct (strictly_increasing _); [|discriminate];
  unfold ret; intros [= <- <- <-];
  unfold cut_trace, cut_lowi, cut_highi; do 4 eexists;
  split; [eassumption|]; split; [eassumption|];
  split; [first [eassumption | reflexivity]|];
  split; [first [eassumption | reflexivity]|];
  split; [eassumption|]; split; [eassumption|]; split; reflexivity.

(** What a successful [cut] went through, whatever the snaps. *)
Lemma cut_ok_inv (h h' : heap) (a a' : HistogramAxis) (low high : option Q)
      (s0 s1 : string) (mask : list bool) :
  cut a low high (Snap2 s0 s1) h = (Ok (a', mask), h') ->
  cut_trace h a a' low high s0 s1 mask.
Proof.
  unfold cut. cbn [forallb]. fold (cut_snap_ok s0). fold (cut_snap_ok s1).
  destruct (cut_snap_ok s0) eqn:V0; [|discriminate].
  destruct (cut_snap_ok s1) eqn:V1; [|discriminate].
  cbn [andb negb].
  destruct low as [lo|], high as [hi|].
  - cut_index_some El. cut_index_some Eh. cut_slice_zeros Ev Ez.
    cut_write_some; cut_write_some; cut_finish.
  - cut_index_some El. cut_index_none. cut_slice_zeros Ev Ez.
    cut_write_some; cut_write_none; cut_finish.
  - cut_index_none. cut_index_some Eh. cut_slice_zeros Ev Ez.
    cut_write_none. cut_write_some; cut_finish.
  - cut_index_none. cut_index_none. cut_slice_zeros Ev Ez.
    cut_write_none. cut_write_none. cut_finish.
Qed.

(** X11.  Whenever [cut] returns, with any bounds and snaps, the mask has
    one entry per bin of the receiver, and as many [True] entries as the
    new axis has bins (none when the new axis has no bin). *)
Theorem cut_mask_counts (h h' : heap) (a a' : HistogramAxis)
        (low high : option Q) (snap : snap_arg) (mask : list bool) :
  (ndim (_edges a) =? 1)%nat = true ->
  cut a low high snap h = (Ok (a', mask), h') ->
  0 <= nbins a /\
  List.length mask = Z.to_nat (nbins a) /\
  Z.of_nat (count_true mask) = Z.max 0 (nbins a').
Proof.
  intros Hd Hcut. pose proof (ndim1_shape _ Hd) as Hsh.
  assert (Hcut2 : exists s0 s1,
             cut a low high (Snap2 s0 s1) h = (Ok (a', mask), h')).
  { destruct snap as [s|s0 s1]; [exists s, s | exists s0, s1]; exact Hcut. }
  destruct Hcut2 as (s0 & s1 & Hcut2).
  destruct (@cut_ok_inv h h' a a' low high s0 s1 mask Hcut2)
    as (lowi & highi & v & m & V0 & V1 & El & Eh & Ev & Ez & -> & Hshape).
  assert (Hn : 0 <= nbins a).
  { unfold zeros in Ez. destruct (Z.ltb_spec (nbins a) 0); [discriminate|].
    trivial. }
  assert (Hm : m = repeat false (Z.to_nat (nbins a))).
  { unfold zeros in Ez. destruct (nbins a <? 0); [discriminate|].
    now injection Ez as <-. }
  assert (Hlen : (1 <= len (_edges a))%nat) by (unfold nbins in Hn; lia).
  pose proof (@cut_lowi_range h a low s0 lowi Hsh Hlen V0 El) as Rl.
  pose proof (@cut_highi_range h a high s1 highi Hsh Hlen V1 Eh) as Rh.
  assert (Hv : shape v = [Z.to_nat (highi + 1 - lowi)]).
  { unfold getslice in Ev. change (1 =? 0) with false in Ev. cbv iota in Ev.
    unfold nbins in Rl, Rh.
    rewrite slice_indices_within in Ev by lia. now injection Ev as <-. }
  subst m. rewrite setslice_true_repeat by lia.
  split; [exact Hn|]. split.
  - rewrite !length_app, !repeat_length. lia.
  - rewrite !count_true_app, !count_true_repeat.
    unfold nbins in *. unfold len at 1. rewrite Hshape, Hv. cbn [hd]. lia.
Qed.

Lemma cut_mask_counts_witness :
  0 <= nbins Examples.axis0 /\
  List.length [false; true; false] = Z.to_nat (nbins Examples.axis0) /\
  Z.of_nat (count_true [false; true; false])
  = Z.max 0 (nbins (mk_axis (mk_ndarray 1 0 1 [2%nat]) None)).
Proof.
  apply (@cut_mask_counts Examples.heap0
           [[0; 1; 2; 3]%Q; [1; 2]%Q] Examples.axis0
           (mk_axis (mk_ndarray 1 0 1 [2%nat]) None)
           (Some (1 # 2)) (Some 2%Q) (Snap "nearest")
           [false; true; false] eq_refl).
  reflexivity.
Defined.

(** ** mergebins when the bins do not divide evenly *)

Lemma slice_indices_from (len s n : Z) :
  0 <= s < len -> 1 <= n ->
  slice_indices len (Some s) None n
  = (s, Z.to_nat ((len - s - 1) / n + 1)).
Proof.
  intros Hs Hn. unfold slice_indices, clamp_index.
  destruct (Z.ltb_spec n 0); [lia|].
  destruct (Z.ltb_spec s 0); [lia|].
  destruct (Z.leb_spec len s); [lia|].
  destruct (Z.ltb_spec s len); [reflexivity | lia].
Qed.

(** Every [n]-th edge from [s0] on: the values of [e[s0::n]]. *)
Lemma values_strided (h : heap) (a : HistogramAxis) (v : ndarray)
      (start : option Z) (s0 n : Z) (count : nat) :
  shape (_edges a) = [len (_edges a)] ->
  getslice (_edges a) start None n = Ok v ->
  slice_indices (Z.of_nat (len (_edges a))) start None n = (s0, count) ->
  (forall k, (k < count)%nat ->
             0 <= s0 + Z.of_nat k * n < Z.of_nat (len (_edges a))) ->
  values h v = map (fun k => item (edges h a) (s0 + Z.of_nat k * n))
                   (seq 0 count) /\
  shape v = [count].
Proof.
  intros Hsh Ev Hsl Hr.
  pose proof (values_getslice h _ _ _ _ Ev) as Hv. rewrite Hsl in Hv. split.
  - rewrite Hv. apply map_ext_in. intros k Hk. apply in_seq in Hk.
    apply load_values; trivial. apply Hr. lia.
  - unfold getslice in Ev. destruct (n =? 0); [discriminate|].
    rewrite Hsl in Ev. now injection Ev as <-.
Qed.

Lemma strictly_increasing_strided (e : list Q) (s0 n : Z) (count : nat) :
  strictly_increasing e = true ->
  1 <= n -> 0 <= s0 ->
  (forall k, (k < count)%nat ->
             s0 + Z.of_nat k * n < Z.of_nat (List.length e)) ->
  strictly_increasing
    (map (fun k => item e (s0 + Z.of_nat k * n)) (seq 0 count)) = true.
Proof.
  intros Hs Hn H0 Hr. apply strictly_increasing_map_seq. intros k Hk.
  pose proof (Hr (S k) Hk). rewrite !item_nonneg by nia.
  apply strictly_increasing_lt; trivial. nia.
Qed.

(** X12.  [mergebins(n, snap, clip=True)] on an axis with at least one
    edge keeps every [n]-th edge, counted from the first edge for ['low']
    and from edge [nbins mod n] for ['high'], so that the remainder is
    dropped at the other end; the new axis has [nbins // n] bins. *)
Theorem mergebins_clip (h : heap) (a : HistogramAxis) (n : Z)
        (snap : string) :
  axis_ok h a = true ->
  1 <= n ->
  0 <= nbins a ->
  snap_in snap ["low"; "high"]%string = true ->
  let s0 := if String.eqb snap "low" then 0 else nbins a mod n in
  exists a' h',
    mergebins a n snap true h = (Ok a', h') /\
    edges h' a'
    = map (fun k => item (edges h a) (s0 + Z.of_nat k * n))
          (seq 0 (Z.to_nat (nbins a / n + 1))) /\
    nbins a' = nbins a / n.
Proof.
  intros ok Hn Hb Hsnap s0.
  destruct (axis_ok_inv h a ok) as (Hsh & Hl & Hs).
  pose proof (Z.div_mod (nbins a) n ltac:(lia)) as Hdm.
  pose proof (Z.mod_pos_bound (nbins a) n ltac:(lia)) as Hm.
  assert (Hd : 0 <= nbins a / n) by (apply Z.div_pos; lia).
  set (count := Z.to_nat (nbins a / n + 1)).
  set (start := if (nbins a mod n =? 0) || String.eqb snap "low"
                then None else Some (nbins a mod n)).
  assert (Hs0 : 0 <= s0 <= nbins a mod n).
  { unfold s0. destruct (String.eqb snap "low"); lia. }
  assert (Hstart : slice_indices (Z.of_nat (len (_edges a))) start None n
                   = (s0, count)).
  { unfold start, s0, count. unfold nbins in *.
    destruct (Z.eqb_spec ((Z.of_nat (len (_edges a)) - 1) mod n) 0) as [E|E];
      cbn [orb].
    - rewrite slice_indices_stride by lia.
      destruct (String.eqb snap "low"); [reflexivity | now rewrite E].
    - destruct (String.eqb snap "low").
      + now rewrite slice_indices_stride by lia.
      + rewrite slice_indices_from by lia. do 2 f_equal.
        set (N := Z.of_nat (len (_edges a)) - 1) in *.
        replace (Z.of_nat (len (_edges a)) - N mod n - 1)
          with (N / n * n) by (unfold N in *; lia).
        now rewrite Z.div_mul by lia. }
  assert (Hrange : forall k, (k < count)%nat ->
             0 <= s0 + Z.of_nat k * n < Z.of_nat (len (_edges a))).
  { intros k Hk. unfold count, nbins in *. nia. }
  assert (Hcode : mergebins a n snap true h
                  = (newedges <- lift (getslice (_edges a) start None n) ;;
                     __init__ (Bins (PArray newedges)) LimNone (_label a))%py
                      h).
  { unfold mergebins, start. rewrite Hsnap. cbn [negb].
    destruct (Z.eqb_spec n 0); [lia|].
    destruct (nbins a mod n =? 0); cbn [orb]; [reflexivity|].
    destruct (String.eqb snap "low"); reflexivity. }
  destruct (getslice (_edges a) start None n) as [v|x] eqn:Ev.
  2:{ unfold getslice in Ev. destruct (Z.eqb_spec n 0); [lia|].
      destruct (slice_indices _ _ _ _); discriminate. }
  destruct (@values_strided h a v start s0 n count Hsh Ev Hstart Hrange)
    as (Hv & Hshv).
  assert (Hinc : strictly_increasing (values h v) = true).
  { rewrite Hv. apply strictly_increasing_strided; trivial; try lia.
    intros k Hk. rewrite Hl. apply Hrange, Hk. }
  rewrite Hcode. unfold bind, lift.
  rewrite (init_from_array h v (_label a) (getslice_ndim _ _ _ _ Ev)), Hinc.
  do 2 eexists. split; [reflexivity|]. split.
  - unfold edges at 1. cbn [_edges]. rewrite values_alloc; trivial.
    now rewrite values_length.
  - unfold nbins at 1. cbn [_edges]. unfold len. cbn [shape].
    rewrite Hshv. cbn [hd]. unfold count. lia.
Qed.

(** Three bins merged by two, from the high end. *)
Lemma mergebins_clip_witness :
  exists a' h',
    mergebins Examples.axis0 2 "high" true Examples.heap0 = (Ok a', h') /\
    edges h' a' = [1; 3]%Q /\
    nbins a' = 1.
Proof.
  apply (@mergebins_clip Examples.heap0 Examples.axis0 2 "high" eq_refl);
    [lia | vm_compute; discriminate | reflexivity].
Defined.

Lemma strictly_increasing_snoc (l : list Q) (x : Q) :
  strictly_increasing l = true ->
  (nth (List.length l - 1) l 0 < x)%Q ->
  strictly_increasing (l ++ [x]) = true.
Proof.
  intros Hs Hx. rewrite strictly_increasing_step in *. intros i.
  rewrite length_app. cbn [List.length]. intros Hi.
  destruct (Nat.lt_ge_cases (S i) (List.length l)) as [L|G].
  - rewrite !app_nth1 by lia. now apply Hs.
  - rewrite app_nth1, app_nth2 by lia.
    replace (S i - List.length l)%nat with 0%nat by lia. cbn [nth].
    now replace i with (List.length l - 1)%nat by lia.
Qed.

Lemma strictly_increasing_push (x : Q) (l : list Q) :
  strictly_increasing l = true ->
  (x < nth 0 l 0)%Q ->
  (1 <= List.length l)%nat ->
  strictly_increasing (x :: l) = true.
Proof.
  intros Hs Hx Hl. destruct l as [|y t]; [simpl in Hl; lia|].
  rewrite strictly_increasing_cons, Hs, andb_true_r. now apply Qltb_true.
Qed.

(** X13.  When [n] does not divide the number of bins,
    [mergebins(n, snap, clip=False)] keeps the limits of the axis: the
    remainder becomes one more bin, at the high end for ['low'] and at the
    low end for ['high'], so the new axis has [nbins // n + 1] bins and the
    same first and last edge. *)
Theorem mergebins_noclip (h : heap) (a : HistogramAxis) (n : Z)
        (snap : string) :
  axis_ok h a = true ->
  1 <= n ->
  0 <= nbins a ->
  nbins a mod n <> 0 ->
  snap_in snap ["low"; "high"]%string = true ->
  exists a' h',
    mergebins a n snap false h = (Ok a', h') /\
    edges h' a'
    = (if String.eqb snap "low"
       then map (fun k => item (edges h a) (Z.of_nat k * n))
                (seq 0 (Z.to_nat (nbins a / n + 1)))
            ++ [item (edges h a) (-1)]
       else item (edges h a) 0
            :: map (fun k => item (edges h a)
                                  (nbins a mod n + Z.of_nat k * n))
                   (seq 0 (Z.to_nat (nbins a / n + 1)))) /\
    nbins a' = nbins a / n + 1 /\
    item (edges h' a') 0 = item (edges h a) 0 /\
    item (edges h' a') (-1) = item (edges h a) (-1).
Proof.
  intros ok Hn Hb Hrem Hsnap.
  destruct (axis_ok_inv h a ok) as (Hsh & Hl & Hs).
  pose proof (Z.div_mod (nbins a) n ltac:(lia)) as Hdm.
  pose proof (Z.mod_pos_bound (nbins a) n ltac:(lia)) as Hm.
  assert (Hd : 0 <= nbins a / n) by (apply Z.div_pos; lia).
  set (d := nbins a / n) in *. set (m := nbins a mod n) in *.
  set (count := Z.to_nat (d + 1)).
  set (e := edges h a) in *.
  assert (Hlen : Z.of_nat (List.length e) = nbins a + 1)
    by (unfold nbins; lia).
  assert (Hfirst : getitem h (_edges a) 0 = Ok (item e 0))
    by (apply getitem_item; trivial; unfold nbins in Hb; lia).
  assert (Hlast : getitem h (_edges a) (-1) = Ok (item e (-1)))
    by (apply getitem_item; trivial; unfold nbins in Hb; lia).
  (* the list handed to the constructor, and why it is increasing *)
  set (l' := if String.eqb snap "low"
             then map (fun k => item e (Z.of_nat k * n)) (seq 0 count)
                      ++ [item e (-1)]
             else item e 0
                  :: map (fun k => item e (m + Z.of_nat k * n))
                         (seq 0 count)).
  assert (Hinc : strictly_increasing l' = true).
  { unfold l'. destruct (String.eqb snap "low").
    - apply strictly_increasing_snoc.
      + apply (strictly_increasing_strided e (s0 := 0)); trivial; try lia.
        intros k Hk. unfold count in Hk. nia.
      + rewrite length_map, length_seq, nth_map_seq by (unfold count; lia).
        rewrite item_last, item_nonneg by (unfold count; nia).
        apply strictly_increasing_lt; trivial. unfold count. nia.
    - apply strictly_increasing_push.
      + apply (strictly_increasing_strided e); trivial; try lia.
        intros k Hk. unfold count in Hk. nia.
      + rewrite nth_map_seq by (unfold count; lia).
        rewrite !item_nonneg by lia.
        apply strictly_increasing_lt; trivial. cbn. lia.
      + rewrite length_map, length_seq. unfold count. lia. }
  assert (Hlen' : List.length l' = S count).
  { unfold l'. destruct (String.eqb snap "low").
    - rewrite length_app, length_map, length_seq. cbn. lia.
    - cbn [List.length]. now rewrite length_map, length_seq. }
  set (c := mk_ndarray (List.length h) 0 1 [List.length l']).
  assert (Hc : values (h ++ [l']) c = l') by (now apply values_alloc).
  assert (Hcat : forall start s0,
             slice_indices (Z.of_nat (len (_edges a))) start None n
             = (s0, count) ->
             (forall k, (k < count)%nat ->
                        0 <= s0 + Z.of_nat k * n
                        < Z.of_nat (len (_edges a))) ->
             exists v, getslice (_edges a) start None n = Ok v /\
                       values h v
                       = map (fun k => item e (s0 + Z.of_nat k * n))
                             (seq 0 count)).
  { intros start s0 Hsl Hr.
    destruct (getslice (_edges a) start None n) as [v|x] eqn:Ev.
    - exists v. split; trivial.
      apply (@values_strided h a v start s0 n count Hsh Ev Hsl Hr).
    - unfold getslice in Ev. destruct (Z.eqb_spec n 0); [lia|].
      destruct (slice_indices _ _ _ _); discriminate. }
  assert (Hcode : mergebins a n snap false h
                  = __init__ (Bins (PArray c)) LimNone (_label a)
                             (h ++ [l'])).
  { unfold mergebins. rewrite Hsnap. cbn [negb].
    destruct (Z.eqb_spec n 0); [lia|]. fold m.
    destruct (Z.eqb_spec m 0); [lia|]. unfold l', c.
    destruct (String.eqb snap "low").
    - destruct (Hcat None 0) as (v & Ev & Hv).
      { unfold count, d, nbins.
        now rewrite slice_indices_stride by lia. }
      { intros k Hk. unfold count, nbins in *. nia. }
      unfold bind at 1. unfold bind at 1. unfold lift at 1. rewrite Ev.
      unfold bind at 1. rewrite Hlast.
      unfold bind at 1. unfold read at 1. rewrite Hv.
      unfold concatenate, alloc. reflexivity.
    - destruct (Hcat (Some m) m) as (v & Ev & Hv).
      { unfold nbins in *. rewrite slice_indices_from by lia.
        do 2 f_equal. unfold count.
        replace (Z.of_nat (len (_edges a)) - m - 1) with (d * n) by lia.
        now rewrite Z.div_mul by lia. }
      { intros k Hk. unfold count, nbins in *. nia. }
      unfold bind at 1. unfold bind at 1. rewrite Hfirst.
      unfold bind at 1. unfold lift at 1. rewrite Ev.
      unfold bind at 1. unfold read at 1. rewrite Hv.
      unfold concatenate, alloc. reflexivity. }
  rewrite Hcode, (init_from_array (h ++ [l']) c (_label a) eq_refl), Hc, Hinc.
  assert (Hnew : forall lab,
             edges ((h ++ [l']) ++ [l'])
                   (mk_axis (mk_ndarray (List.length (h ++ [l'])) 0 1
                                        (shape c)) lab) = l').
  { intros lab. unfold edges. cbn [_edges]. now apply values_alloc. }
  do 2 eexists. split; [reflexivity|]. rewrite Hnew.
  split; [reflexivity|]. split; [|split].
  - unfold nbins at 1. cbn [_edges len shape c hd]. rewrite Hlen'.
    unfold count. lia.
  - unfold l'. destruct (String.eqb snap "low").
    + rewrite item_nonneg, app_nth1, nth_map_seq
        by (rewrite ?length_map, ?length_seq; unfold count; lia).
      reflexivity.
    + now rewrite item_nonneg by lia.
  - rewrite item_last, Hlen'. unfold l'.
    destruct (String.eqb snap "low").
    + rewrite app_nth2 by (rewrite length_map, length_seq; lia).
      rewrite length_map, length_seq.
      now replace (S count - 1 - count)%nat with 0%nat by lia.
    + replace (S count - 1)%nat with (S (count - 1)) by (unfold count; lia).
      cbn [nth]. rewrite nth_map_seq by (unfold count; lia).
      rewrite item_last, item_nonneg by (unfold count; nia).
      f_equal. unfold count. nia.
Qed.

(** Three bins merged by two without clipping. *)
Lemma mergebins_noclip_witness :
  exists a' h',
    mergebins Examples.axis0 2 "low" false Examples.heap0 = (Ok a', h') /\
    edges h' a' = [0; 2; 3]%Q /\
    nbins a' = 2 /\
    item (edges h' a') 0 = 0%Q /\
    item (edges h' a') (-1) = 3%Q.
Proof.
  apply (@mergebins_noclip Examples.heap0 Examples.axis0 2 "low" eq_refl);
    [lia | vm_compute; discriminate | vm_compute; discriminate
    | reflexivity].
Defined.

(** ** binwidth: which edges are read *)

(** X16.  [binwidth(b)] subtracts [edges[b]] from [edges[b+1]] for a bin
    index [0 <= b < nbins].  For [b = nbins], hence for the default [b = 1]
    on an axis of one bin, and for every index further out on either side,
    it raises [IndexError].  For [b = -1] the two reads wrap around
    differently and it subtracts the last edge from the first. *)
Theorem binwidth_index {A} (sub : Q -> Q -> A) (h : heap)
        (a : HistogramAxis) :
  axis_ok h a = true ->
  1 <= nbins a ->
  (forall b, 0 <= b < nbins a ->
             binwidth sub h a b
             = Ok (sub (item (edges h a) (b + 1)) (item (edges h a) b))) /\
  (forall b, b < - (nbins a + 1) \/ nbins a <= b ->
             binwidth sub h a b = Raise IndexError) /\
  binwidth sub h a (-1)
  = Ok (sub (item (edges h a) 0) (item (edges h a) (-1))).
Proof.
  intros ok Hn. destruct (axis_ok_inv h a ok) as (Hsh & Hl & Hs).
  unfold nbins in *. split; [|split].
  - intros b Hb. unfold binwidth.
    rewrite !(getitem_item h _ Hsh) by lia. reflexivity.
  - intros b Hb. unfold binwidth.
    destruct (Z.eq_dec (b + 1) (- Z.of_nat (len (_edges a)))) as [E|E].
    + rewrite (getitem_item h _ Hsh) by lia.
      rewrite getitem_out_of_range; trivial. lia.
    + rewrite getitem_out_of_range; trivial. lia.
  - unfold binwidth. change (-1 + 1) with 0.
    rewrite !(getitem_item h _ Hsh) by lia. reflexivity.
Qed.

(** On the edges [0, 1, 2, 3], with the subtraction of [float64]. *)
Lemma binwidth_index_witness :
  binwidth Examples.sub64 Examples.heap0 Examples.axis0 1
  = Ok (Examples.sub64 2 1) /\
  binwidth Examples.sub64 Examples.heap0 Examples.axis0 3
  = Raise IndexError /\
  binwidth Examples.sub64 Examples.heap0 Examples.axis0 (-1)
  = Ok (Examples.sub64 0 3).
Proof.
  destruct (@binwidth_index _ Examples.sub64 Examples.heap0 Examples.axis0
              eq_refl)
    as (H1 & H2 & H3); [vm_compute; discriminate|].
  split; [|split].
  - apply (H1 1). vm_compute. split; [discriminate | reflexivity].
  - apply (H2 3). right. vm_compute. discriminate.
  - exact H3.
Defined.

(** ** Equality, clone and the copying constructor *)

Lemma combine_same_in (l : list Q) (p : Q * Q) :
  In p (combine l l) -> fst p = snd p.
Proof.
  induction l as [|x t IH]; cbn [combine]; [intros []|].
  intros [<-|H]; [reflexivity | now apply IH].
Qed.

(** The closeness test holds between a list and itself. *)
Lemma allclose_same (h : heap) (e1 e2 : ndarray) :
  shape e1 = [len e1] -> shape e2 = [len e2] ->
  values h e1 = values h e2 ->
  allclose h e1 e2 = Ok true.
Proof.
  intros H1 H2 Hv.
  assert (Hl : len e1 = len e2).
  { pose proof (values_length h e1) as L1.
    pose proof (values_length h e2) as L2.
    rewrite H1 in L1. rewrite H2 in L2. cbn [prod] in *. congruence. }
  unfold allclose, broadcast. rewrite Hl, Nat.eqb_refl, Hv. f_equal.
  apply forallb_forall. intros p Hp. apply combine_same_in in Hp.
  apply Qle_bool_iff. rewrite Hp.
  assert (Z0 : (Qabs (snd p - snd p) == 0)%Q).
  { rewrite Qabs_pos by lra. ring. }
  rewrite Z0. pose proof (Qabs_nonneg (snd p)).
  unfold atol, rtol. nra.
Qed.

(** X17.  Two axes with the same edge values compare equal, whatever their
    labels and wherever their arrays live. *)
Theorem eq_same_edges (h : heap) (a b : HistogramAxis) :
  (ndim (_edges a) =? 1)%nat = true ->
  (ndim (_edges b) =? 1)%nat = true ->
  edges h a = edges h b ->
  __eq__ h a b = Ok true.
Proof.
  intros Ha Hb He. unfold __eq__.
  now rewrite (allclose_same h _ _ (ndim1_shape _ Ha) (ndim1_shape _ Hb) He).
Qed.

(** The example axis and an axis with a label on a copy of its edges. *)
Lemma eq_same_edges_witness :
  __eq__ [[0; 1; 2; 3]%Q; [0; 1; 2; 3]%Q] Examples.axis0
         (mk_axis (mk_ndarray 1 0 1 [4%nat]) (Some (Str "x")))
  = Ok true.
Proof.
  apply (@eq_same_edges [[0; 1; 2; 3]%Q; [0; 1; 2; 3]%Q] Examples.axis0
           (mk_axis (mk_ndarray 1 0 1 [4%nat]) (Some (Str "x"))));
    reflexivity.
Defined.

(** Growing the heap does not change what an existing array holds. *)
Lemma edges_frame (h l : heap) (a : HistogramAxis) :
  (base (_edges a) < List.length h)%nat ->
  edges (h ++ l) a = edges h a.
Proof.
  intros Hb. unfold edges, values, load. apply map_ext. intros k.
  now rewrite app_nth1.
Qed.

(** X18.  [clone()] returns an axis with the same edges and label in a
    buffer of its own; the original is unchanged and the two compare
    equal. *)
Theorem clone_copy (h : heap) (a : HistogramAxis) :
  axis_ok h a = true ->
  (base (_edges a) < List.length h)%nat ->
  exists a' h',
    clone a h = (Ok a', h') /\
    edges h' a' = edges h a /\
    _label a' = set_label (_label a) /\
    base (_edges a') <> base (_edges a) /\
    edges h' a = edges h a /\
    axis_ok h' a' = true /\
    __eq__ h' a a' = Ok true.
Proof.
  intros ok Hb. destruct (axis_ok_inv h a ok) as (Hsh & Hl & Hs).
  assert (Hd : (ndim (_edges a) =? 1)%nat = true)
    by (unfold ndim; now rewrite Hsh).
  set (c := mk_ndarray (List.length h) 0 1 (shape (_edges a))).
  set (h1 := h ++ [edges h a]).
  assert (Hc : values h1 c = edges h a).
  { apply values_alloc. unfold edges. now rewrite values_length. }
  assert (Hrun : clone a h
                 = (Ok (mk_axis (mk_ndarray (List.length h1) 0 1 (shape c))
                                (set_label (_label a))),
                    h1 ++ [edges h a])).
  { assert (Hdc : (ndim c =? 1)%nat = true) by exact Hd.
    unfold clone. unfold bind. unfold copy, alloc. fold (edges h a).
    fold c. fold h1.
    now rewrite (init_from_array h1 c (_label a) Hdc), Hc, Hs. }
  set (a' := mk_axis (mk_ndarray (List.length h1) 0 1 (shape c))
                     (set_label (_label a))) in *.
  set (h' := h1 ++ [edges h a]) in *.
  assert (Hnew : edges h' a' = edges h a).
  { unfold edges at 1. cbn [_edges a']. apply values_alloc.
    unfold edges. now rewrite values_length. }
  assert (Hold : edges h' a = edges h a).
  { unfold h', h1. rewrite <- app_assoc. now apply edges_frame. }
  exists a', h'. repeat split; trivial.
  - cbn [_edges a' base]. unfold h1. rewrite length_app. cbn. lia.
  - unfold axis_ok. rewrite Hnew, Hs, andb_true_r. exact Hd.
  - unfold __eq__. rewrite allclose_same; trivial.
    fold (edges h' a). fold (edges h' a'). congruence.
Qed.

Lemma clone_copy_witness :
  exists a' h',
    clone Examples.axis0 Examples.heap0 = (Ok a', h') /\
    edges h' a' = [0; 1; 2; 3]%Q /\
    _label a' = None /\
    base (_edges a') <> 0%nat /\
    edges h' Examples.axis0 = [0; 1; 2; 3]%Q /\
    axis_ok h' a' = true /\
    __eq__ h' Examples.axis0 a' = Ok true.
Proof.
  apply (@clone_copy Examples.heap0 Examples.axis0 eq_refl).
  vm_compute. lia.
Defined.

(** ** What every constructed axis satisfies *)

(** The setter on an array of any dimension: it succeeds only on a
    one-dimensional, strictly increasing array, which it stores as it is. *)
Lemma set_edges_array_inv (h h' : heap) (e e' : ndarray) :
  set_edges (PArray e) h = (Ok e', h') ->
  e' = e /\ h' = h /\ (ndim e =? 1)%nat = true /\
  strictly_increasing (values h e) = true.
Proof.
  destruct (ndim e =? 1)%nat eqn:Hd.
  - rewrite (set_edges_array h e Hd).
    destruct (strictly_increasing (values h e)); [|discriminate].
    intros [= <- <-]. auto.
  - unfold set_edges. unfold bind at 1. unfold ret at 1. rewrite Hd.
    discriminate.
Qed.

(** Validation of an array that was just allocated for the new axis. *)
Lemma fresh_array_axis (h h' : heap) (l : list Q) (sh : list nat)
      (lab : option pystr) (a : HistogramAxis) :
  prod sh = List.length l ->
  (e <- set_edges (PArray (mk_ndarray (List.length h) 0 1 sh)) ;;
   ret (mk_axis e lab))%py (h ++ [l]) = (Ok a, h') ->
  axis_ok h' a = true /\
  base (_edges a) = List.length h /\
  h' = h ++ [edges h' a].
Proof.
  intros Hp. unfold bind.
  destruct (set_edges _ _) as [[e|x] g] eqn:E; [|discriminate].
  apply set_edges_array_inv in E. destruct E as (-> & -> & Hd & Hs).
  unfold ret. intros [= <- <-].
  pose proof (values_alloc h l sh Hp) as Hv.
  unfold axis_ok, edges. cbn [_edges base]. rewrite Hd, Hs, Hv. auto.
Qed.

(** X19.  Every axis the constructor returns, from whatever arguments, has
    one-dimensional strictly increasing edges, and holds them in a new
    buffer of its own: the heap grows by exactly that buffer, so the axis
    shares no array with its arguments and no existing array is changed. *)
Theorem init_invariant (bins : bins_arg) (limits : limits_arg)
        (label : option pystr) (h h' : heap) (a : HistogramAxis) :
  __init__ bins limits label h = (Ok a, h') ->
  axis_ok h' a = true /\
  base (_edges a) = List.length h /\
  h' = h ++ [edges h' a].
Proof.
  assert (Copy : forall v lab,
             (c <- copy v ;; e <- set_edges (PArray c) ;;
              ret (mk_axis e lab))%py h = (Ok a, h') ->
             axis_ok h' a = true /\ base (_edges a) = List.length h /\
             h' = h ++ [edges h' a]).
  { intros v lab. unfold bind at 1. unfold copy, alloc.
    apply fresh_array_axis. now rewrite values_length. }
  assert (Obj : forall o lab,
             (c <- deepcopy o ;; e <- set_edges c ;;
              ret (mk_axis e lab))%py h = (Ok a, h') ->
             axis_ok h' a = true /\ base (_edges a) = List.length h /\
             h' = h ++ [edges h' a]).
  { intros [n|q|l|v] lab.
    - cbn [deepcopy]. unfold bind at 1. unfold ret at 1. unfold bind.
      rewrite set_edges_int. discriminate.
    - cbn [deepcopy]. unfold bind at 1. unfold ret at 1. unfold bind.
      unfold set_edges. unfold bind at 1. cbn [asarray]. unfold alloc.
      discriminate.
    - cbn [deepcopy]. unfold bind at 1. unfold ret at 1. unfold bind.
      rewrite set_edges_list.
      destruct (strictly_increasing l) eqn:Hs; [|discriminate].
      unfold ret. intros [= <- <-].
      assert (Hv : values (h ++ [l])
                          (mk_ndarray (List.length h) 0 1 [List.length l])
                   = l) by (now apply values_alloc).
      unfold axis_ok, edges. cbn [_edges base]. rewrite Hv, Hs. auto.
    - cbn [deepcopy]. intros H. apply (Copy v lab).
      revert H. unfold bind. unfold copy, alloc, ret. trivial. }
  unfold __init__.
  destruct (has_iter bins && is_none label).
  - destruct bins as [o|b]; [apply Obj | apply Copy].
  - destruct limits as [|l|s].
    + destruct bins as [o|b]; [apply Obj | apply Copy].
    + destruct bins as [[n|q|l0|v]|b]; try discriminate.
      destruct l as [|lo [|hi [|x t]]]; try discriminate.
      destruct (Qltb lo hi); cbn [negb]; [|discriminate].
      unfold bind at 1. unfold linspace.
      destruct (n + 1 <? 0); [discriminate|].
      destruct (forallb F64.finite _); [|discriminate]. unfold alloc.
      apply fresh_array_axis. cbn [prod]. now rewrite length_map.
    + destruct bins as [[n|q|l0|v]|b]; try discriminate.
      destruct s as [|c0 [|c1 [|c2 t]]]; try discriminate.
      destruct (nat_of_ascii c0 <? nat_of_ascii c1)%nat; discriminate.
Qed.

Lemma init_invariant_witness :
  axis_ok [[5; 7]%Q] (mk_axis (mk_ndarray 0 0 1 [2%nat]) None) = true /\
  base (_edges (mk_axis (mk_ndarray 0 0 1 [2%nat]) None)) = 0%nat /\
  [[5; 7]%Q]
  = [] ++ [edges [[5; 7]%Q] (mk_axis (mk_ndarray 0 0 1 [2%nat]) None)].
Proof.
  apply (@init_invariant (Bins (PList [5; 7]%Q)) LimNone None []).
  reflexivity.
Defined.

(** ** Arguments of the constructor *)

(** X20.  With range limits that are not taken as the label, the
    constructor raises [TypeError] unless [bins] is an integer; for an
    integer it raises [ValueError] when the range has not exactly two
    items, when it is not increasing, and when the bin count is below
    [-1].  The heap is left as it was. *)
Theorem init_argument_errors (h : heap) (label : option pystr) :
  (forall bins l,
      has_iter bins && is_none label = false ->
      (forall n, bins <> Bins (PInt n)) ->
      __init__ bins (LimSeq l) label h = (Raise TypeError, h)) /\
  (forall n l,
      List.length l <> 2%nat ->
      __init__ (Bins (PInt n)) (LimSeq l) label h = (Raise ValueError, h)) /\
  (forall n lo hi,
      (hi <= lo)%Q ->
      __init__ (Bins (PInt n)) (LimSeq [lo; hi]) label h
      = (Raise ValueError, h)) /\
  (forall n lo hi,
      (lo < hi)%Q -> n < -1 ->
      __init__ (Bins (PInt n)) (LimSeq [lo; hi]) label h
      = (Raise ValueError, h)).
Proof.
  split; [|split; [|split]].
  - intros bins l Hit Hint. unfold __init__. rewrite Hit.
    destruct bins as [[n|q|l0|v]|b]; try reflexivity.
    now destruct (Hint n).
  - intros n l Hl. unfold __init__. cbn [has_iter andb].
    destruct l as [|lo [|hi [|x t]]]; try reflexivity.
    now destruct Hl.
  - intros n lo hi Hle. unfold __init__. cbn [has_iter andb].
    apply Qltb_false in Hle. now rewrite Hle.
  - intros n lo hi Hlt Hn. unfold __init__. cbn [has_iter andb].
    apply Qltb_true in Hlt. rewrite Hlt. cbn [negb].
    unfold bind, linspace.
    destruct (Z.ltb_spec (n + 1) 0); [reflexivity | lia].
Qed.

Lemma init_argument_errors_witness :
  __init__ (Bins (PFloat (5 # 2))) (LimSeq [0; 1]%Q) None []
  = (Raise TypeError, []) /\
  __init__ (Bins (PInt 4)) (LimSeq [0; 1; 2]%Q) None []
  = (Raise ValueError, []) /\
  __init__ (Bins (PInt 4)) (LimSeq [1; 0]%Q) None []
  = (Raise ValueError, []) /\
  __init__ (Bins (PInt (-2))) (LimSeq [0; 1]%Q) None []
  = (Raise ValueError, []).
Proof.
  destruct (init_argument_errors [] None) as (H1 & H2 & H3 & H4).
  split; [|split; [|split]].
  - apply H1; [reflexivity | discriminate].
  - apply H2. discriminate.
  - apply H3. qcompare.
  - apply H4; [qcompare | lia].
Defined.

(** X21.  With a sequence of edges as first argument and no [label]
    keyword, the second argument is the label, never a range:
    [HistogramAxis(edges, x)] is [HistogramAxis(edges, label=x)], for a
    string and as well for a sequence of numbers, which becomes the label
    [str(x)] instead of raising the [TypeError] of a range beside edges. *)
Theorem init_positional_label (o : pyobj) (h : heap) :
  has_iter (Bins o) = true ->
  (forall s, __init__ (Bins o) (LimStr s) None h
             = __init__ (Bins o) LimNone (Some (Str s)) h) /\
  (forall l, __init__ (Bins o) (LimSeq l) None h
             = __init__ (Bins o) LimNone (Some (StrOf l)) h) /\
  (forall l a h', __init__ (Bins o) (LimSeq l) None h = (Ok a, h') ->
                  _label a = Some (StrOf l)).
Proof.
  intros Hit. unfold __init__. rewrite Hit. cbn [andb is_none].
  repeat split.
  intros l a h'. cbn [set_label_obj]. unfold bind.
  destruct (deepcopy o h) as [[c|x] g]; [|discriminate].
  destruct (set_edges c g) as [[e|x] g']; [|discriminate].
  unfold ret. now intros [= <- _].
Qed.

Lemma init_positional_label_witness :
  __init__ (Bins (PList [0; 1; 2]%Q)) (LimStr "x") None []
  = __init__ (Bins (PList [0; 1; 2]%Q)) LimNone (Some (Str "x")) [].
Proof.
  apply (@init_positional_label (PList [0; 1; 2]%Q) [] eq_refl).
Defined.

Lemma mul_zero_finite (s : bool) (x : F64.float) :
  F64.finite x = true -> exists s', F64.mul (S754_zero s) x = S754_zero s'.
Proof. destruct x; cbn; intros H; try discriminate; eauto. Qed.

Lemma add_zero_finite (s : bool) (x : F64.float) :
  F64.finite x = true -> F64.finite (F64.add (S754_zero s) x) = true.
Proof.
  destruct x as [sx|sx| |sx m e]; cbn; intros H; try discriminate; trivial.
  destruct s, sx; reflexivity.
Qed.

(** X22.  The bin count is not checked beyond what [np.linspace] refuses.
    [HistogramAxis(-1, (lo, hi))] is an axis without any edge, of [-1]
    bins.  [HistogramAxis(0, (lo, hi))], for a float [lo] and a difference
    [hi - lo] that does not overflow, is an axis of the single edge [lo]
    with no bin. *)
Theorem init_degenerate_counts (lo hi : Q) (label : option pystr)
        (h : heap) :
  (lo < hi)%Q ->
  (F64.is_float lo = true ->
   F64.finite (F64.sub (F64.of_Q hi) (F64.of_Q lo)) = true ->
   exists a' h' v,
     __init__ (Bins (PInt 0)) (LimSeq [lo; hi]) label h = (Ok a', h') /\
     edges h' a' = [v] /\ (v == lo)%Q /\ nbins a' = 0) /\
  (exists a' h',
      __init__ (Bins (PInt (-1))) (LimSeq [lo; hi]) label h = (Ok a', h') /\
      edges h' a' = [] /\ nbins a' = -1).
Proof.
  intros Hlt. apply Qltb_true in Hlt. split.
  - intros Flo Fd.
    set (y := F64.add (F64.mul (S754_zero false)
                               (F64.sub (F64.of_Q hi) (F64.of_Q lo)))
                      (F64.of_Q lo)).
    assert (Hi : linspace_items lo hi (0 + 1) = [y]) by reflexivity.
    destruct (mul_zero_finite false _ Fd) as (s' & Em).
    assert (Fs : F64.finite (F64.of_Q lo) = true).
    { unfold F64.is_float in Flo. now apply andb_prop in Flo. }
    assert (Fy : F64.finite y = true).
    { unfold y. rewrite Em. now apply add_zero_finite. }
    assert (Vy : (F64.to_Q y == lo)%Q).
    { unfold y in *. rewrite Em in Fy |- *. rewrite add_zero_l by trivial.
      now apply is_float_value. }
    exists (mk_axis (mk_ndarray (List.length h) 0 1 [1%nat])
                    (set_label label)), (h ++ [[F64.to_Q y]]), (F64.to_Q y).
    assert (Hv : values (h ++ [[F64.to_Q y]])
                        (mk_ndarray (List.length h) 0 1 [1%nat])
                 = [F64.to_Q y]) by (now apply values_alloc).
    split; [|split; [exact Hv|split; [exact Vy|reflexivity]]].
    unfold __init__. cbn [has_iter andb]. rewrite Hlt. cbn [negb].
    unfold bind at 1. unfold linspace. rewrite Hi.
    change (0 + 1 <? 0) with false. cbv iota. cbn [forallb].
    rewrite Fy. cbn [andb map List.length]. unfold alloc, bind.
    rewrite (set_edges_array _ _ (eq_refl : (ndim (mk_ndarray
               (List.length h) 0 1 [1%nat]) =? 1)%nat = true)), Hv.
    reflexivity.
  - exists (mk_axis (mk_ndarray (List.length h) 0 1 [0%nat])
                    (set_label label)), (h ++ [[]]).
    assert (Hv : values (h ++ [[]]) (mk_ndarray (List.length h) 0 1 [0%nat])
                 = []) by (now apply values_alloc).
    assert (Hi : linspace_items lo hi (-1 + 1) = []) by reflexivity.
    split; [|split; [exact Hv | reflexivity]].
    unfold __init__. cbn [has_iter andb]. rewrite Hlt. cbn [negb].
    unfold bind at 1. unfold linspace. rewrite Hi.
    change (-1 + 1 <? 0) with false. cbv iota.
    cbn [forallb map List.length]. unfold alloc, bind.
    rewrite (set_edges_array _ _ (eq_refl : (ndim (mk_ndarray
               (List.length h) 0 1 [0%nat]) =? 1)%nat = true)), Hv.
    reflexivity.
Qed.

Lemma init_degenerate_counts_witness :
  (exists a' h' v,
      __init__ (Bins (PInt 0)) (LimSeq [0; 1]%Q) None [] = (Ok a', h') /\
      edges h' a' = [v] /\ (v == 0)%Q /\ nbins a' = 0) /\
  (exists a' h',
      __init__ (Bins (PInt (-1))) (LimSeq [0; 1]%Q) None [] = (Ok a', h') /\
      edges h' a' = [] /\ nbins a' = -1).
Proof.
  destruct (@init_degenerate_counts 0 1 None [] eq_refl) as (H0 & H1).
  split; [apply H0; reflexivity | exact H1].
Defined.

(** X23.  [HistogramAxis(b)] on an axis [b] copies the edges of [b] into a
    new buffer and takes over its label, unless a [label] is given, which
    then replaces it. *)
Theorem init_copy_axis (h : heap) (b : HistogramAxis)
        (label : option pystr) :
  axis_ok h b = true ->
  exists a' h',
    __init__ (BinsAxis b) LimNone label h = (Ok a', h') /\
    edges h' a' = edges h b /\
    base (_edges a') = List.length h /\
    _label a' = match label with
                | None => set_label (_label b)
                | Some _ => set_label label
                end.
Proof.
  intros ok. destruct (axis_ok_inv h b ok) as (Hsh & Hl & Hs).
  assert (Hd : (ndim (_edges b) =? 1)%nat = true)
    by (unfold ndim; now rewrite Hsh).
  set (c := mk_ndarray (List.length h) 0 1 (shape (_edges b))).
  assert (Hdc : (ndim c =? 1)%nat = true) by exact Hd.
  assert (Hc : values (h ++ [edges h b]) c = edges h b).
  { apply values_alloc. unfold edges. now rewrite values_length. }
  exists (mk_axis c (if is_none label then set_label (_label b)
                     else set_label label)), (h ++ [edges h b]).
  split; [|split; [exact Hc | split; [reflexivity|]]].
  - unfold __init__. cbn [has_iter andb].
    unfold bind at 1. unfold copy, alloc. fold (edges h b). fold c.
    unfold bind. rewrite (set_edges_array _ c Hdc), Hc, Hs. reflexivity.
  - cbn [_label]. now destruct label.
Qed.

Lemma init_copy_axis_witness :
  exists a' h',
    __init__ (BinsAxis Examples.axis0) LimNone (Some (Str "x"))
             Examples.heap0 = (Ok a', h') /\
    edges h' a' = [0; 1; 2; 3]%Q /\
    base (_edges a') = 1%nat /\
    _label a' = Some (Str "x").
Proof.
  apply (@init_copy_axis Examples.heap0 Examples.axis0 (Some (Str "x"))
           eq_refl).
Defined.
